(** * POI extraction by adaptive subdivision: a model of
      [googlemap_poi_extractor.py]

    The development embeds the extractor's functions as Rocq functions:
    - raw search hits are JSON values, dictionaries being association lists;
    - coordinates and tile edge lengths are rationals (every edge length the
      program computes is the initial one divided by a power of two);
    - the module globals the functions read or update, the output file and the
      external world (search service, clock) are threaded through an explicit
      state; Python exceptions are results of their own;
    - the retry loop and the recursion of [variable_bounding_box] take fuel. *)

From Stdlib Require Import List String DecimalString QArith Qround ZArith Lia Lqa.
From Stdlib Require Import Bool Arith Ascii.
Import ListNotations.

Local Open Scope string_scope.
Local Open Scope Q_scope.

Set Implicit Arguments.
Set Warnings "-register-all".

(** ** JSON values *)

Inductive json : Type :=
| JNull
| JNaN                                  (* np.float('nan') *)
| JBool (b : bool)
| JNum (q : Q)
| JStr (s : string)
| JArr (l : list json)
| JObj (l : list (string * json)).

(** ** Exceptions *)

Inductive exn : Type :=
| ValueError (msg : string)
| KeyError (key : string)
| TypeError
| FileNotFoundError
| ConnectionError.

Definition config_message : string :=
  "Please either provide a bounding box defined by its edges (i.e. maximum latitude, maximum longitude, minimum latitude, minimum longitude) or a single latitude, longitude pair".

(** ['Number of queries: {} | Query result: {}'.format(n, status)] *)
Definition unexpected_message (n : nat) (status : string) : string :=
  "Number of queries: " ++ NilEmpty.string_of_uint (Nat.to_uint n)
  ++ " | Query result: " ++ status.

(** Pure fallible computations (no access to the globals). *)
Inductive result (A : Type) : Type :=
| Ok (a : A)
| Err (e : exn).
Arguments Err {A} e.

Definition rbind {A B} (m : result A) (k : A -> result B) : result B :=
  match m with
  | Ok a => k a
  | Err e => Err e
  end.

Declare Scope result_scope.
Delimit Scope result_scope with result.
Notation "x <~ m ;; k" := (rbind m (fun x => k))
  (at level 61, m at next level, right associativity) : result_scope.

(** Lookup of a key in the pairs of a dictionary. *)
Fixpoint assoc (k : string) (l : list (string * json)) : option json :=
  match l with
  | [] => None
  | (k', v) :: l' => if String.eqb k k' then Some v else assoc k l'
  end.

(** [d[k]] for a JSON value [d] and a string key [k]: [KeyError] when the
    dictionary has no such key, [TypeError] when [d] is no dictionary. *)
Definition getitem (d : json) (k : string) : result json :=
  match d with
  | JObj l => match assoc k l with
              | Some v => Ok v
              | None => Err (KeyError k)
              end
  | _ => Err TypeError
  end.

(** [k in d.keys()].  It is only used on values that were subscripted with
    a string key before, which are dictionaries. *)
Definition has_key (d : json) (k : string) : bool :=
  match d with
  | JObj l => match assoc k l with Some _ => true | None => false end
  | _ => false
  end.

(** A value used as a number in a comparison. *)
Definition as_number (j : json) : result Q :=
  match j with
  | JNum q => Ok q
  | JBool true => Ok 1
  | JBool false => Ok 0
  | _ => Err TypeError
  end.

(** ** Comparisons on rationals, as Python writes them *)

Definition Qlt_bool (x y : Q) : bool :=
  (Qnum x * QDen y <? Qnum y * QDen x)%Z.

Definition Qge_bool (x y : Q) : bool := Qle_bool y x.

(** ** Features (the dictionaries [format_query_result] builds) *)

Record Geometry : Type := {
  location : json * json;               (* 'coordinates': [lat, lng] *)
  bound : option (list (json * json))   (* the polygon ring, when present *)
}.

Record Properties : Type := {
  address : json;
  name : json;
  place_type : json;
  source : string;
  requires_verification : string
}.

Record Feature : Type := {
  geometry : Geometry;
  properties : Properties;
  id : string;
  extraction_date : string
}.

(** ** The external world and the missing helper module *)

(** One nearby-search request, as [extract_poi] builds its parameters. *)
Record Request : Type := {
  key : option string;
  centre : Q * Q;                       (* 'location': lat, lng *)
  radius : Q
}.

(** The body of a reply, as the Places API documents it: an object with a
    'status' string and a 'results' array of raw hits. *)
Record Response : Type := {
  status : string;
  results : list json
}.

Inductive Reply : Type :=
| Answer (r : Response)
| ConnectionFailure.                    (* requests.exceptions.ConnectionError *)

(** The search service and the clock.  The service answers a request from its
    current state, [elapse] is what [time.sleep] does to it and [extract_date]
    reads today's date. *)
Class World : Type := {
  W : Type;
  api : Request -> W -> Reply * W;
  elapse : Q -> W -> W;
  extract_date : W -> string
}.

(** A tile: [coordinate[0..3]] = min_lat, min_lng, max_lat, max_lng. *)
Record Coordinate : Type := {
  c0 : Q; c1 : Q; c2 : Q; c3 : Q
}.

(** The functions imported from [helper_functions] whose code is numeric
    (floating-point geodesy, text segmentation) are taken as they are typed by
    their call sites. *)
Class Helpers : Type := {
  Polygon : Type;
  point_within : Q * Q -> Polygon -> bool;    (* Point(x, y).within(polygon) *)
  translate_coordinate : Q -> Q -> Q -> Q -> Q * Q * Q * Q;
  identify_centroid : Q -> Q -> Q -> Q -> Q * Q;
  calculate_circle_radius : Q -> Q -> Q -> Q -> Q;
  divide_bounding_box : Q -> Q -> Q -> Q -> Q -> list Coordinate;
  segment_address : json -> json;
  py_str : json -> string                     (* str(x) *)
}.

(** The module globals the functions read and never assign. *)
Class Globals `{Helpers} : Type := {
  api_key : string;
  wait_time : Q;
  max_lat : Q;
  min_lat : Q;
  max_lng : Q;
  min_lng : Q;
  querybox_dim : Q;
  shapefile_tampines : list Polygon
}.

(** A value used as a coordinate: a number, or NaN ([None]). *)
Definition coordinate_value (j : json) : result (option Q) :=
  match j with
  | JNaN => Ok None
  | _ => rbind (as_number j) (fun q => Ok (Some q))
  end.

(** Modelled from the spec: [within_boundary_area] of [helper_functions],
    which is not among the sources.  The spec's [contains] is true iff
    [min_lat <= lat <= max_lat] and [min_lng <= lng <= max_lng]; a NaN compares
    false with everything and a value that is no number cannot be compared. *)
Definition within_boundary_area (lat lng : json)
    (min_lat max_lat min_lng max_lng : Q) : result bool :=
  (la <~ coordinate_value lat ;;
   ln <~ coordinate_value lng ;;
   Ok match la, ln with
      | Some a, Some b =>
          Qle_bool min_lat a && Qle_bool a max_lat &&
          Qle_bool min_lng b && Qle_bool b max_lng
      | _, _ => false
      end)%result.

(** Modelled from the spec: [remove_duplicate] of [helper_functions], which is
    not among the sources.  The spec's [dedupe] returns one record per distinct
    id and keeps the first occurrence's data. *)
Fixpoint remove_duplicate_from (seen : list string) (features : list Feature)
    : list Feature :=
  match features with
  | [] => []
  | f :: rest =>
      if existsb (String.eqb (id f)) seen
      then remove_duplicate_from seen rest
      else f :: remove_duplicate_from (id f :: seen) rest
  end.

Definition remove_duplicate (features : list Feature) : list Feature :=
  remove_duplicate_from [] features.

(** ** Building the features of one reply *)

Section Formatting.
Context `{G : Globals} `{Wd : World}.

Definition extract_placename (query_result : json) : json :=
  match query_result with
  | JObj l => match assoc "name" l with Some v => v | None => JNaN end
  | _ => JNaN
  end.

(** Lines 87-101: the geometry of the feature. *)
Definition hit_geometry (geom lat lng : json) : result Geometry :=
  (if has_key geom "bounds" then
     bounds <~ getitem geom "bounds" ;;
     ne <~ getitem bounds "northeast" ;;
     ne_lat <~ getitem ne "lat" ;;
     ne <~ getitem bounds "northeast" ;;
     ne_lng <~ getitem ne "lng" ;;
     sw <~ getitem bounds "southwest" ;;
     sw_lat <~ getitem sw "lat" ;;
     sw <~ getitem bounds "southwest" ;;
     sw_lng <~ getitem sw "lng" ;;
     Ok {| location := (lat, lng);
           bound := Some [(sw_lat, ne_lng); (ne_lat, ne_lng);
                          (ne_lat, sw_lng); (sw_lat, sw_lng)] |}
   else Ok {| location := (lat, lng); bound := None |})%result.

(** Lines 103-106: the address of the feature. *)
Definition hit_address (hit : json) : result json :=
  (if has_key hit "vicinity" then
     v <~ getitem hit "vicinity" ;; Ok (segment_address v)
   else Ok JNaN)%result.

(** The body of the loop of [format_query_result] for one raw hit: [Ok None]
    is [continue], an error is the exception that leaves the function.  The
    box of the test is the one of the module globals. *)
Definition format_hit (w : W) (hit : json) : result (option Feature) :=
  (geom <~ getitem hit "geometry" ;;
   loc <~ getitem geom "location" ;;
   lat <~ getitem loc "lat" ;;
   lng <~ getitem loc "lng" ;;
   inside <~ within_boundary_area lat lng min_lat max_lat min_lng max_lng ;;
   if negb inside then Ok None
   else
     geometry <~ hit_geometry geom lat lng ;;
     address <~ hit_address hit ;;
     types <~ getitem hit "types" ;;
     place_id <~ getitem hit "place_id" ;;
     Ok (Some {| geometry := geometry;
                 properties := {| address := address;
                                  name := extract_placename hit;
                                  place_type := types;
                                  source := "GoogleMap";
                                  requires_verification := "No" |};
                 id := py_str place_id;
                 extraction_date := extract_date w |}))%result.

Fixpoint format_query_result (w : W) (query_result : list json)
    : result (list Feature) :=
  match query_result with
  | [] => Ok []
  | hit :: rest =>
      (r <~ format_hit w hit ;;
       poi_data <~ format_query_result w rest ;;
       Ok match r with
          | Some poi_dict => poi_dict :: poi_data
          | None => poi_data
          end)%result
  end.

End Formatting.

(** ** Run state and the monad of the stateful functions *)

Inductive Message : Type :=
| Processing (i n : nat)                (* 'Processing query i/n' *)
| Pausing (minutes : Q)                 (* 'Pausing query for ... minutes...' *)
| ConnectionPausing (minutes : Q).      (* 'Connection Error. Pausing ...' *)

Inductive Event : Type :=
| Print (m : Message)
| Sleep (seconds : Q)
| Get (r : Request).

(** The file [output_filename]: missing, opened for writing and left empty, or
    holding a feature collection. *)
Inductive FileState : Type :=
| Absent
| Truncated
| Collection (features : list Feature).

Record State `{World} : Type := {
  world : W;
  num_queries : nat;
  box_dimensions : list Q;
  output_file : FileState;
  trace : list Event
}.

Inductive Outcome `{World} (A : Type) : Type :=
| Val (a : A) (st : State)
| Exn (e : exn) (st : State)
| OutOfFuel.
Arguments Exn {_ A} e st.
Arguments OutOfFuel {_ A}.

Definition M `{World} (A : Type) : Type := State -> Outcome A.

Section Monad.
Context `{Wd : World}.

Definition ret {A} (a : A) : M A := fun st => Val a st.

Definition bind {A B} (m : M A) (k : A -> M B) : M B :=
  fun st =>
    match m st with
    | Val a st' => k a st'
    | Exn e st' => Exn e st'
    | OutOfFuel => OutOfFuel
    end.

Definition raise {A} (e : exn) : M A := fun st => Exn e st.

Definition out_of_fuel {A} : M A := fun _ => OutOfFuel.

(** [try: m except requests.exceptions.ConnectionError: h] *)
Definition try_except {A} (m h : M A) : M A :=
  fun st =>
    match m st with
    | Exn ConnectionError st' => h st'
    | r => r
    end.

Definition set_world (w : W) (st : State) : State :=
  {| world := w; num_queries := num_queries st;
     box_dimensions := box_dimensions st; output_file := output_file st;
     trace := trace st |}.

Definition set_num_queries (n : nat) (st : State) : State :=
  {| world := world st; num_queries := n;
     box_dimensions := box_dimensions st; output_file := output_file st;
     trace := trace st |}.

Definition set_box_dimensions (l : list Q) (st : State) : State :=
  {| world := world st; num_queries := num_queries st;
     box_dimensions := l; output_file := output_file st;
     trace := trace st |}.

Definition set_output_file (f : FileState) (st : State) : State :=
  {| world := world st; num_queries := num_queries st;
     box_dimensions := box_dimensions st; output_file := f;
     trace := trace st |}.

Definition log (e : Event) (st : State) : State :=
  {| world := world st; num_queries := num_queries st;
     box_dimensions := box_dimensions st; output_file := output_file st;
     trace := trace st ++ [e] |}.

Definition print (m : Message) : M unit := fun st => Val tt (log (Print m) st).

(** [time.sleep(seconds)] *)
Definition sleep (seconds : Q) : M unit :=
  fun st => Val tt (log (Sleep seconds) (set_world (elapse seconds (world st)) st)).

(** [requests.get(url, params).json()] *)
Definition requests_get (r : Request) : M Response :=
  fun st =>
    let (reply, w) := api r (world st) in
    let st' := log (Get r) (set_world w st) in
    match reply with
    | Answer body => Val body st'
    | ConnectionFailure => Exn ConnectionError st'
    end.

End Monad.

Declare Scope monad_scope.
Delimit Scope monad_scope with monad.
Notation "x <- m ;; k" := (bind m (fun x => k))
  (at level 61, m at next level, right associativity) : monad_scope.
Notation "m ;; k" := (bind m (fun _ => k))
  (at level 61, right associativity) : monad_scope.

(** ** The extractor *)

Section Extractor.
Context `{G : Globals} `{Wd : World}.
Local Open Scope monad_scope.

Definition is_None {A} (o : option A) : bool :=
  match o with None => true | Some _ => false end.

(** [extract_poi] up to the parameters of the request: the two checks of
    the arguments and the translation between box and centre. *)
Definition extract_poi_params (max_lat max_lng min_lat min_lng lat lng : option Q)
    (l h : Q) (api_key : option string) : result Request :=
  if is_None max_lat && is_None max_lng && is_None min_lat && is_None min_lng
     && is_None lat && is_None lng
  then Err (ValueError config_message)
  else
    let '(max_lat, max_lng, min_lat, min_lng, lat, lng) :=
      if negb (is_None lat) && negb (is_None lng) then
        match lat, lng with
        | Some la, Some ln =>
            let '(a, b, c, d) := translate_coordinate la ln l h in
            (Some a, Some b, Some c, Some d, lat, lng)
        | _, _ => (max_lat, max_lng, min_lat, min_lng, lat, lng)
        end
      else if negb (is_None max_lat) && negb (is_None max_lng)
              && negb (is_None min_lat) && negb (is_None min_lng) then
        match max_lat, max_lng, min_lat, min_lng with
        | Some a, Some b, Some c, Some d =>
            let '(la, ln) := identify_centroid a b c d in
            (max_lat, max_lng, min_lat, min_lng, Some la, Some ln)
        | _, _, _, _ => (max_lat, max_lng, min_lat, min_lng, lat, lng)
        end
      else (max_lat, max_lng, min_lat, min_lng, lat, lng) in
    match max_lat, max_lng, min_lat, min_lng, lat, lng with
    | Some a, Some b, Some _, Some _, Some la, Some ln =>
        Ok {| key := api_key; centre := (la, ln);
              radius := calculate_circle_radius a b la ln |}
    | _, _, _, _, _, _ => Err (ValueError config_message)
    end.

Definition extract_poi (max_lat max_lng min_lat min_lng lat lng : option Q)
    (l h : Q) (api_key : option string) : M Response :=
  match extract_poi_params max_lat max_lng min_lat min_lng lat lng l h api_key with
  | Err e => raise e
  | Ok r => requests_get r
  end.

(** [np.sum(shapefile['geometry'].apply(lambda x: Point(x, y).within(x)))] *)
Definition count_within (p : Q * Q) (shapefile : list Polygon) : nat :=
  List.length (filter (point_within p) shapefile).

Definition pixelise_region (coordinates : list Coordinate)
    (shapefile : list Polygon) : list Coordinate :=
  filter (fun coordinate =>
            negb (count_within (c1 coordinate, c0 coordinate) shapefile =? 0)%nat
            || negb (count_within (c3 coordinate, c0 coordinate) shapefile =? 0)%nat
            || negb (count_within (c1 coordinate, c2 coordinate) shapefile =? 0)%nat
            || negb (count_within (c3 coordinate, c2 coordinate) shapefile =? 0)%nat)
         coordinates.

Definition record_dimension (querybox_dim : Q) : M unit :=
  fun st => Val tt (set_box_dimensions (box_dimensions st ++ [querybox_dim]) st).

Definition succeeded (query_result : Response) : bool :=
  String.eqb (status query_result) "OK"
  || String.eqb (status query_result) "ZERO_RESULTS".

(** The type of [variable_bounding_box], for the recursive call. *)
Definition subdivider : Type :=
  Q -> Q -> Q -> Q -> Q -> list Polygon -> bool -> M unit.

(** Lines 167-176: what is done with an 'OK' or 'ZERO_RESULTS' reply. *)
Definition dispatch (self : subdivider) (coordinate : Coordinate)
    (querybox_dim : Q) (shapefile : list Polygon) (query_result : Response)
    : M unit :=
  let n := List.length (results query_result) in
  if String.eqb (status query_result) "ZERO_RESULTS" || (n <? 20)%nat then
    record_dimension querybox_dim
  else if (20 <=? n)%nat && Qge_bool (querybox_dim / 2) 2.5 then
    self (c2 coordinate) (c0 coordinate) (c3 coordinate) (c1 coordinate)
         (querybox_dim / 2) shapefile false
  else if (20 <=? n)%nat && Qlt_bool (querybox_dim / 2) 2.5 then
    record_dimension querybox_dim
  else
    raise (ValueError (unexpected_message n (status query_result))).

Definition pause (m : Message) : M unit :=
  print m ;; sleep (wait_time * 60).

(** The [while not_successful] loop for one tile; it returns the value of
    [query_result] when the loop is left.  [not_successful] is cleared only
    just after [query_result] was assigned from an 'OK' or 'ZERO_RESULTS'
    reply, so the loop is left in the iteration that obtained the reply it
    returns, whether [dispatch] ends normally or in a connection error. *)
Fixpoint query_loop (self : subdivider) (fuel : nat) (coordinate : Coordinate)
    (querybox_dim : Q) (shapefile : list Polygon) : M Response :=
  match fuel with
  | O => out_of_fuel
  | S fuel' =>
      attempt <- try_except
        (query_result <- extract_poi (Some (c2 coordinate)) (Some (c3 coordinate))
                           (Some (c0 coordinate)) (Some (c1 coordinate))
                           None None 50 50 (Some api_key) ;;
         ret (Some query_result))
        (pause (ConnectionPausing wait_time) ;; ret None) ;;
      match attempt with
      | Some query_result =>
          if succeeded query_result then
            sleep 1 ;;
            try_except (dispatch self coordinate querybox_dim shapefile query_result)
                       (pause (ConnectionPausing wait_time)) ;;
            ret query_result
          else
            pause (Pausing wait_time) ;;
            query_loop self fuel' coordinate querybox_dim shapefile
      | None => query_loop self fuel' coordinate querybox_dim shapefile
      end
  end.

(** Lines 188-207: the features of the reply go to the output file. *)
Definition store (query_result : Response) : M unit :=
  if String.eqb (status query_result) "ZERO_RESULTS" then ret tt
  else
    match results query_result with
    | [] => ret tt
    | _ :: _ =>
        fun st =>
          match output_file st with
          | Collection features =>
              match format_query_result (world st) (results query_result) with
              | Ok poi_data =>
                  Val tt (set_output_file (Collection (features ++ poi_data)) st)
              | Err e => Exn e st
              end
          | Truncated => Exn (ValueError "JSONDecodeError") st
          | Absent =>
              match format_query_result (world st) (results query_result) with
              | Ok poi_data => Val tt (set_output_file (Collection poi_data) st)
              | Err e => Exn e (set_output_file Truncated st)
              end
          end
    end.

Definition increment_num_queries : M unit :=
  fun st => Val tt (set_num_queries (S (num_queries st)) st).

(** The [for coordinate in coordinate_list] loop, from query number [i]. *)
Fixpoint for_coordinates (self : subdivider) (fuel : nat) (total : nat)
    (querybox_dim : Q) (shapefile : list Polygon) (print_progress : bool)
    (i : nat) (coordinate_list : list Coordinate) : M unit :=
  match coordinate_list with
  | [] => ret tt
  | coordinate :: rest =>
      (if print_progress then print (Processing i total) else ret tt) ;;
      increment_num_queries ;;
      query_result <- query_loop self fuel coordinate querybox_dim shapefile ;;
      store query_result ;;
      for_coordinates self fuel total querybox_dim shapefile print_progress
                      (S i) rest
  end.

Fixpoint variable_bounding_box (fuel : nat)
    (max_lat min_lat max_lng min_lng querybox_dim : Q)
    (shapefile : list Polygon) (print_progress : bool) : M unit :=
  match fuel with
  | O => out_of_fuel
  | S fuel' =>
      let coordinate_list :=
        divide_bounding_box max_lat min_lat max_lng min_lng querybox_dim in
      let coordinate_list := pixelise_region coordinate_list shapefile_tampines in
      for_coordinates (variable_bounding_box fuel') fuel'
                      (List.length coordinate_list) querybox_dim shapefile
                      print_progress 1 coordinate_list
  end.

(** The closing pass of the script: the collected features are read back,
    deduplicated and written again. *)
Definition deduplicate_output : M unit :=
  fun st =>
    match output_file st with
    | Collection features =>
        Val tt (set_output_file (Collection (remove_duplicate features)) st)
    | Truncated => Exn (ValueError "JSONDecodeError") st
    | Absent => Exn FileNotFoundError st
    end.

Definition main (fuel : nat) : M unit :=
  fun st =>
    (variable_bounding_box fuel max_lat min_lat max_lng min_lng querybox_dim
                           shapefile_tampines true ;;
     deduplicate_output)
      (set_box_dimensions [] (set_num_queries 0 st)).

End Extractor.

(** ** Predicates of the specification *)

(** The inputs of [extract_poi] that the specification calls incomplete:
    nothing at all is supplied, or the box lacks an edge and the centre lacks
    a coordinate. *)
Definition nothing_supplied (max_lat max_lng min_lat min_lng lat lng : option Q)
    : Prop :=
  max_lat = None /\ max_lng = None /\ min_lat = None /\ min_lng = None
  /\ lat = None /\ lng = None.

Definition box_complete (max_lat max_lng min_lat min_lng : option Q) : Prop :=
  max_lat <> None /\ max_lng <> None /\ min_lat <> None /\ min_lng <> None.

Definition centre_complete (lat lng : option Q) : Prop :=
  lat <> None /\ lng <> None.

Definition inputs_incomplete (max_lat max_lng min_lat min_lng lat lng : option Q)
    : Prop :=
  nothing_supplied max_lat max_lng min_lat min_lng lat lng
  \/ (~ box_complete max_lat max_lng min_lat min_lng /\ ~ centre_complete lat lng).

Section HitPredicates.
Context `{G : Globals}.

(** The location a raw hit carries: [hit['geometry']['location']], its
    'lat' and its 'lng'. *)
Definition hit_location (hit : json) : result (json * json) :=
  (geom <~ getitem hit "geometry" ;;
   loc <~ getitem geom "location" ;;
   lat <~ getitem loc "lat" ;;
   lng <~ getitem loc "lng" ;;
   Ok (lat, lng))%result.

(** The location lies in the box [box_min_lat .. box_max_lat] by
    [box_min_lng .. box_max_lng]. *)
Definition located_in (hit : json)
    (box_min_lat box_max_lat box_min_lng box_max_lng : Q) : bool :=
  match hit_location hit with
  | Ok (lat, lng) =>
      match within_boundary_area lat lng box_min_lat box_max_lat
                                 box_min_lng box_max_lng with
      | Ok b => b
      | Err _ => false
      end
  | Err _ => false
  end.

(** The box of the module globals. *)
Definition in_global_box (hit : json) : bool :=
  located_in hit min_lat max_lat min_lng max_lng.

(** The box of a tile. *)
Definition in_tile (hit : json) (tile : Coordinate) : bool :=
  located_in hit (c0 tile) (c2 tile) (c1 tile) (c3 tile).

Definition present {A} (r : result A) : bool :=
  match r with Ok _ => true | Err _ => false end.

Definition corner_present (bounds : json) (corner axis : string) : bool :=
  present (rbind (getitem bounds corner) (fun c => getitem c axis)).

(** A hit with every field the formatter reads: a location of two
    coordinates, 'types', 'place_id', and, when it has 'bounds', both
    corners of them. *)
Definition well_formed (hit : json) : bool :=
  match getitem hit "geometry", hit_location hit with
  | Ok geom, Ok (lat, lng) =>
      present (coordinate_value lat) && present (coordinate_value lng)
      && (negb (has_key geom "bounds")
          || match getitem geom "bounds" with
             | Ok bounds =>
                 corner_present bounds "northeast" "lat"
                 && corner_present bounds "northeast" "lng"
                 && corner_present bounds "southwest" "lat"
                 && corner_present bounds "southwest" "lng"
             | Err _ => false
             end)
      && has_key hit "types" && has_key hit "place_id"
  | _, _ => false
  end.

End HitPredicates.

Section RunPredicates.
Context `{G : Globals} `{Wd : World}.

(** The request [extract_poi] sends for a tile. *)
Definition tile_request (tile : Coordinate) : Request :=
  let centroid := identify_centroid (c2 tile) (c3 tile) (c0 tile) (c1 tile) in
  {| key := Some api_key;
     centre := centroid;
     radius := calculate_circle_radius (c2 tile) (c3 tile)
                                       (fst centroid) (snd centroid) |}.

(** The state once the reply to a request has come in. *)
Definition after_reply (r : Request) (w : W) (st : State) : State :=
  log (Get r) (set_world w st).

(** The state after [time.sleep(seconds)]. *)
Definition after_sleep (seconds : Q) (st : State) : State :=
  log (Sleep seconds) (set_world (elapse seconds (world st)) st).

(** The state after a pause was announced and slept through. *)
Definition after_pause (m : Message) (st : State) : State :=
  after_sleep (wait_time * 60) (log (Print m) st).

(** The state after [k] attempts in a row that ended in a connection error,
    if the service fails that often. *)
Fixpoint connection_failures (k : nat) (r : Request) (st : State)
    : option State :=
  match k with
  | O => Some st
  | S k' =>
      match api r (world st) with
      | (ConnectionFailure, w) =>
          connection_failures k' r
            (after_pause (ConnectionPausing wait_time) (after_reply r w st))
      | (Answer _, _) => None
      end
  end.

(** The state after [k] attempts in a row that did not succeed: a
    connection error, or a reply whose status is neither 'OK' nor
    'ZERO_RESULTS' (the request was rate-limited or refused). *)
Fixpoint failed_attempts (k : nat) (r : Request) (st : State) : option State :=
  match k with
  | O => Some st
  | S k' =>
      match api r (world st) with
      | (ConnectionFailure, w) =>
          failed_attempts k' r
            (after_pause (ConnectionPausing wait_time) (after_reply r w st))
      | (Answer body, w) =>
          if succeeded body then None
          else failed_attempts k' r
                 (after_pause (Pausing wait_time) (after_reply r w st))
      end
  end.

(** What the retry loop still does once a successful reply has come in and
    the pacing second is over. *)
Definition resolve (self : subdivider) (coordinate : Coordinate)
    (querybox_dim : Q) (shapefile : list Polygon) (query_result : Response)
    : M Response :=
  (try_except (dispatch self coordinate querybox_dim shapefile query_result)
              (pause (ConnectionPausing wait_time)) ;;
   ret query_result)%monad.

(** The events of one failed attempt on a request. *)
Definition retry_events (r : Request) (m : Message) : list Event :=
  [Get r; Print m; Sleep (wait_time * 60)].

(** From [st] to [st'] the edge lengths in [new] were recorded. *)
Definition recorded (new : list Q) (st st' : State) : Prop :=
  box_dimensions st' = (box_dimensions st ++ new)%list.

(** From [st] to [st'] edge lengths were recorded that all satisfy [P]. *)
Definition grows (P : Q -> Prop) (st st' : State) : Prop :=
  exists new, recorded new st st' /\ Forall P new.

(** The exceptions of writing the features: a lookup in a raw hit fails, or
    the output file cannot be read back. *)
Definition store_exn (e : exn) : Prop :=
  e = TypeError \/ (exists k, e = KeyError k) \/ e = ValueError "JSONDecodeError".

(** [m], run from [st], records only edges that satisfy [P] and raises only
    exceptions that satisfy [E]. *)
Definition ensures (P : Q -> Prop) (E : exn -> Prop) {A} (m : M A) (st : State)
    : Prop :=
  match m st with
  | Val _ st' => grows P st st'
  | Exn e st' => E e /\ grows P st st'
  | OutOfFuel => True
  end.

(** Raw hits the formatter accepts, whatever the date. *)
Definition storable (hits : list json) : Prop :=
  forall w, exists fs, format_query_result w hits = Ok fs.

(** The stub search of the specification's test: for a tile obtained by
    dividing a box at some edge length, it answers 'OK' at once, with 20
    results or more exactly when that edge is at least [threshold], and its
    hits are ones the formatter accepts. *)
Definition stub_truncates_from (threshold : Q) : Prop :=
  forall max_lat min_lat max_lng min_lng edge tile w,
    In tile (divide_bounding_box max_lat min_lat max_lng min_lng edge) ->
    exists body,
      fst (api (tile_request tile) w) = Answer body
      /\ status body = "OK"
      /\ ((20 <= List.length (results body))%nat <-> threshold <= edge)
      /\ storable (results body).

(** [m], run from [st], returns, has recorded only edges that satisfy [P]
    and leaves an output file that can be read back. *)
Definition completes (P : Q -> Prop) (m : M unit) (st : State) : Prop :=
  exists st' new,
    m st = Val tt st' /\ recorded new st st' /\ Forall P new
    /\ output_file st' <> Truncated.

(** [d] halved [k] times is below 10. *)
Fixpoint below_10_after (k : nat) (d : Q) : Prop :=
  match k with
  | O => d < 10
  | S k' => below_10_after k' (d / 2)
  end.

(** The state in which the first query of a tile is sent: the progress line
    is printed and the query is counted. *)
Definition tile_started (print_progress : bool) (i total : nat) (st : State)
    : State :=
  set_num_queries (S (num_queries (if print_progress
                                   then log (Print (Processing i total)) st
                                   else st)))
                  (if print_progress
                   then log (Print (Processing i total)) st
                   else st).

End RunPredicates.

(** The features an output file holds: none when it is missing. *)
Definition file_features (f : FileState) : list Feature :=
  match f with
  | Collection features => features
  | Absent | Truncated => []
  end.

(** ** The rest of the module *)

Section Coordinates.
Context `{H : Helpers}.

(** [format_coordinates]: the query string of a box and its centre,
    'centre_lat, centre_lng&bounds=min_lat, min_lng|max_lat, max_lng'. *)
Definition format_coordinates
    (max_lat max_lng min_lat min_lng centre_lat centre_lng : Q) : string :=
  let centre_coordinate :=
    (py_str (JNum centre_lat) ++ ", ") ++ py_str (JNum centre_lng) in
  let bottom_left_coordinate :=
    (py_str (JNum min_lat) ++ ", ") ++ py_str (JNum min_lng) in
  let top_right_coordinate :=
    (py_str (JNum max_lat) ++ ", ") ++ py_str (JNum max_lng) in
  (((centre_coordinate ++ "&bounds=") ++ bottom_left_coordinate) ++ "|")
  ++ top_right_coordinate.

(** A string without the characters that separate the fields. *)
Fixpoint plain (s : string) : Prop :=
  match s with
  | EmptyString => True
  | String ch rest =>
      ch <> ","%char /\ ch <> "&"%char /\ ch <> "|"%char /\ plain rest
  end.

End Coordinates.

Section TracePredicates.
Context `{G : Globals} `{Wd : World}.

(** Traces in which no request follows another without a sleep between:
    a request is followed by the pacing second, or by the announcement of a
    pause and the pause. *)
Inductive paced : list Event -> Prop :=
| paced_nil : paced []
| paced_progress (i n : nat) (t : list Event) :
    paced t -> paced (Print (Processing i n) :: t)
| paced_answer (r : Request) (t : list Event) :
    paced t -> paced (Get r :: Sleep 1 :: t)
| paced_retry (r : Request) (m : Message) (t : list Event) :
    paced t -> paced (Get r :: Print m :: Sleep (wait_time * 60) :: t).

(** From [st] to [st'] the trace grew by a paced trace. *)
Definition trace_paced (st st' : State) : Prop :=
  exists t, trace st' = (trace st ++ t)%list /\ paced t.

(** From [st] to [st'] the features of the output file were kept, with
    new ones after them. *)
Definition output_appended (st st' : State) : Prop :=
  forall features, output_file st = Collection features ->
                   exists new, output_file st' = Collection (features ++ new).

(** [m], run from [st], ends in a state related to [st] by [R], whether it
    returns or raises. *)
Definition keeps (R : State -> State -> Prop) {A} (m : M A) (st : State) : Prop :=
  match m st with
  | Val _ st' => R st st'
  | Exn _ st' => R st st'
  | OutOfFuel => True
  end.

(** The requests of a trace, in their order. *)
Fixpoint requests_of (t : list Event) : list Request :=
  match t with
  | [] => []
  | Get r :: t' => r :: requests_of t'
  | _ :: t' => requests_of t'
  end.

(** A service that finds nothing: every reply is 'ZERO_RESULTS'. *)
Definition finds_nothing : Prop :=
  forall r w, exists body,
    fst (api r w) = Answer body /\ status body = "ZERO_RESULTS".


(** A hit the formatter goes through without an exception: it has a
    location that can be compared with the global box and, when it lies in
    that box, every field of a well-formed hit. *)
Definition acceptable (hit : json) : bool :=
  match hit_location hit with
  | Ok (lat, lng) =>
      match within_boundary_area lat lng min_lat max_lat min_lng max_lng with
      | Ok true => well_formed hit
      | Ok false => true
      | Err _ => false
      end
  | Err _ => false
  end.

(** A corner of the tile lies within the polygon. *)
Definition corner_within (coordinate : Coordinate) (polygon : Polygon) : bool :=
  point_within (c1 coordinate, c0 coordinate) polygon
  || point_within (c3 coordinate, c0 coordinate) polygon
  || point_within (c1 coordinate, c2 coordinate) polygon
  || point_within (c3 coordinate, c2 coordinate) polygon.

End TracePredicates.

(** ** Concrete scenarios

    A planar instance of the helpers (coordinates in metres, square tiles laid
    out from the minimum corner, the study area being the whole plane), and
    search services that answer from a table or from a script. *)

Module Scenario.

Definition grid_steps (lo hi edge : Q) : nat :=
  Z.to_nat (Qceiling ((hi - lo) / edge)).

Definition planar_grid (max_lat min_lat max_lng min_lng edge : Q)
    : list Coordinate :=
  flat_map (fun i =>
    map (fun j =>
           {| c0 := min_lat + inject_Z (Z.of_nat i) * edge;
              c1 := min_lng + inject_Z (Z.of_nat j) * edge;
              c2 := min_lat + inject_Z (Z.of_nat i) * edge + edge;
              c3 := min_lng + inject_Z (Z.of_nat j) * edge + edge |})
        (seq 0 (grid_steps min_lng max_lng edge)))
    (seq 0 (grid_steps min_lat max_lat edge)).

Definition planar : Helpers := {|
  Polygon := unit;
  point_within := fun _ _ => true;
  translate_coordinate := fun lat lng l h =>
    (lat + h / 2, lng + l / 2, lat - h / 2, lng - l / 2);
  identify_centroid := fun max_lat max_lng min_lat min_lng =>
    ((max_lat + min_lat) / 2, (max_lng + min_lng) / 2);
  calculate_circle_radius := fun max_lat max_lng lat lng =>
    (max_lat - lat) + (max_lng - lng);
  divide_bounding_box := planar_grid;
  segment_address := fun v => v;
  py_str := fun j => match j with JStr s => s | _ => "" end
|}.

(** A study area of 100 m by 100 m, queried from 40 m tiles. *)
Definition region : @Globals planar :=
  @Build_Globals planar "key" 15 100 0 100 0 40 [tt].

Definition hit (place_id : string) (lat lng : Q) : json :=
  JObj [("geometry", JObj [("location", JObj [("lat", JNum lat); ("lng", JNum lng)])]);
        ("name", JStr place_id);
        ("types", JArr []);
        ("place_id", JStr place_id)].

(** A hit without 'location'. *)
Definition hit_without_location (place_id : string) : json :=
  JObj [("geometry", JObj []); ("types", JArr []); ("place_id", JStr place_id)].

Definition digit (n : nat) : string :=
  String (Ascii.ascii_of_nat (48 + n / 10)) (String (Ascii.ascii_of_nat (48 + n mod 10)) "").

(** [n] hits at one place, with ids [prefix00], [prefix01], ... *)
Definition hits (prefix : string) (n : nat) (lat lng : Q) : list json :=
  map (fun k => hit (prefix ++ digit k) lat lng) (seq 0 n).

(** A service without state that answers every request from a table. *)
Definition table_service (answer : Request -> Response) : World := {|
  W := unit;
  api := fun r w => (Answer (answer r), w);
  elapse := fun _ w => w;
  extract_date := fun _ => "2020-01-01"
|}.

(** A service that plays a script of replies, one per request, and answers
    'ZERO_RESULTS' when the script is over. *)
Definition scripted_service : World := {|
  W := list Reply;
  api := fun _ w =>
    match w with
    | [] => (Answer {| status := "ZERO_RESULTS"; results := [] |}, [])
    | reply :: rest => (reply, rest)
    end;
  elapse := fun _ w => w;
  extract_date := fun _ => "2020-01-01"
|}.

Definition initial `{World} (w : W) : State := {|
  world := w; num_queries := 0; box_dimensions := [];
  output_file := Absent; trace := []
|}.

(** Twenty hits for a tile of edge 40 m or more, none for a smaller one.  The
    radius of a planar tile is its edge. *)
Definition crowded_at_40 (r : Request) : Response :=
  if Qge_bool (radius r) 40
  then {| status := "OK"; results := hits "T" 20 1 1 |}
  else {| status := "ZERO_RESULTS"; results := [] |}.

(** One hit at (50, 50), whatever the request. *)
Definition far_hit (r : Request) : Response :=
  {| status := "OK"; results := [hit "far" 50 50] |}.

(** Truncated exactly from an edge of 10 m. *)
Definition truncated_from_10 (r : Request) : Response :=
  if Qge_bool (radius r) 10
  then {| status := "OK"; results := hits "T" 20 1 1 |}
  else {| status := "OK"; results := hits "S" 3 1 1 |}.

Definition crowded : World := table_service crowded_at_40.
Definition far : World := table_service far_hit.
Definition stub : World := table_service truncated_from_10.

(** The state of a table service. *)
Definition idle_crowded : @W crowded := tt.
Definition idle_far : @W far := tt.
Definition idle_stub : @W stub := tt.

(** The tile of edge 40 m at the origin. *)
Definition tile40 : Coordinate := {| c0 := 0; c1 := 0; c2 := 40; c3 := 40 |}.

(** The feature of [hit place_id lat lng]. *)
Definition feature (place_id : string) (lat lng : Q) : Feature := {|
  geometry := {| location := (JNum lat, JNum lng); bound := None |};
  properties := {| address := JNaN; name := JStr place_id;
                   place_type := JArr []; source := "GoogleMap";
                   requires_verification := "No" |};
  id := place_id;
  extraction_date := "2020-01-01"
|}.

(** A script: two connection errors, then two hits. *)
Definition two_errors_then_hits : @W scripted_service :=
  [ConnectionFailure; ConnectionFailure;
   Answer {| status := "OK"; results := [hit "a" 1 1; hit "b" 2 2] |}].

(** A script: a rate-limited reply, a connection error, then two hits. *)
Definition limited_then_hits : @W scripted_service :=
  [Answer {| status := "OVER_QUERY_LIMIT"; results := [] |};
   ConnectionFailure;
   Answer {| status := "OK"; results := [hit "a" 1 1; hit "b" 2 2] |}].

(** The planar helpers, with numbers written as the decimal string of their
    numerator. *)
Definition integral : Helpers := {|
  Polygon := unit;
  point_within := fun _ _ => true;
  translate_coordinate := fun lat lng l h =>
    (lat + h / 2, lng + l / 2, lat - h / 2, lng - l / 2);
  identify_centroid := fun max_lat max_lng min_lat min_lng =>
    ((max_lat + min_lat) / 2, (max_lng + min_lng) / 2);
  calculate_circle_radius := fun max_lat max_lng lat lng =>
    (max_lat - lat) + (max_lng - lng);
  divide_bounding_box := planar_grid;
  segment_address := fun v => v;
  py_str := fun j =>
    match j with
    | JStr s => s
    | JNum q => NilEmpty.string_of_int (Z.to_int (Qnum q))
    | _ => ""
    end
|}.

(** The planar study area without any polygon. *)
Definition nowhere : @Globals planar :=
  @Build_Globals planar "key" 15 100 0 100 0 40 [].

(** A service that finds nothing anywhere. *)
Definition deserted : World :=
  table_service (fun _ => {| status := "ZERO_RESULTS"; results := [] |}).

Definition idle_deserted : @W deserted := tt.

(** Twenty hits whatever the request. *)
Definition always_crowded : World :=
  table_service (fun _ => {| status := "OK"; results := hits "T" 20 1 1 |}).

Definition idle_always_crowded : @W always_crowded := tt.

Definition rate_limited : Reply :=
  Answer {| status := "OVER_QUERY_LIMIT"; results := [] |}.

Definition two_hits : Response :=
  {| status := "OK"; results := [hit "a" 1 1; hit "b" 2 2] |}.

End Scenario.

(** * Properties *)

Lemma Qlt_bool_iff x y : Qlt_bool x y = true <-> x < y.
Proof. unfold Qlt_bool, Qlt. apply Z.ltb_lt. Qed.

Lemma Qge_bool_iff x y : Qge_bool x y = true <-> y <= x.
Proof. unfold Qge_bool. apply Qle_bool_iff. Qed.

(** ** Deduplication *)

Section Deduplication.

Lemma existsb_eqb_In (s : string) (seen : list string) :
  existsb (String.eqb s) seen = true <-> In s seen.
Proof.
  rewrite existsb_exists. split.
  - intros (x & Hin & Heq). apply String.eqb_eq in Heq. now subst.
  - intros Hin. exists s. split; [assumption | apply String.eqb_refl].
Qed.

Lemma remove_duplicate_from_ids seen features i :
  In i (map id (remove_duplicate_from seen features)) <->
  In i (map id features) /\ ~ In i seen.
Proof.
  revert seen. induction features as [|f rest IH]; intros seen; simpl.
  - tauto.
  - destruct (existsb (String.eqb (id f)) seen) eqn:Hseen.
    + apply existsb_eqb_In in Hseen. rewrite IH.
      split; [tauto|]. intros [[Heq|Hin] Hn]; [subst i; contradiction | tauto].
    + assert (Hn : ~ In (id f) seen).
      { intros Hin. apply existsb_eqb_In in Hin. congruence. }
      simpl. rewrite IH. simpl.
      destruct (string_dec (id f) i) as [Heq|Hne]; [subst i|]; tauto.
Qed.

Lemma remove_duplicate_from_NoDup seen features :
  NoDup (map id (remove_duplicate_from seen features)).
Proof.
  revert seen. induction features as [|f rest IH]; intros seen; simpl.
  - constructor.
  - destruct (existsb (String.eqb (id f)) seen); [apply IH|].
    simpl. constructor; [|apply IH].
    rewrite remove_duplicate_from_ids. simpl. tauto.
Qed.

Lemma remove_duplicate_from_first seen features f :
  In f (remove_duplicate_from seen features) ->
  find (fun g => String.eqb (id g) (id f)) features = Some f.
Proof.
  revert seen. induction features as [|g rest IH]; intros seen; simpl.
  - tauto.
  - destruct (existsb (String.eqb (id g)) seen) eqn:Hseen.
    + intros Hin. destruct (String.eqb (id g) (id f)) eqn:Heq.
      * apply String.eqb_eq in Heq. exfalso.
        assert (Hid : In (id f) (map id (remove_duplicate_from seen rest)))
          by now apply in_map.
        apply remove_duplicate_from_ids in Hid.
        apply existsb_eqb_In in Hseen. rewrite Heq in Hseen. tauto.
      * now apply IH with seen.
    + intros [->|Hin]; [now rewrite String.eqb_refl|].
      destruct (String.eqb (id g) (id f)) eqn:Heq.
      * apply String.eqb_eq in Heq. exfalso.
        assert (Hid : In (id f) (map id (remove_duplicate_from (id g :: seen) rest)))
          by now apply in_map.
        apply remove_duplicate_from_ids in Hid. simpl in Hid. tauto.
      * now apply IH with (id g :: seen).
Qed.

(** C7: [remove_duplicate] returns exactly one record per distinct id of
    its input (the ids of the result are without repetition and are the ids
    of the input), and the record kept for an id is the first record of the
    input with that id. *)
Theorem remove_duplicate_first_occurrence (features : list Feature) :
  NoDup (map id (remove_duplicate features))
  /\ (forall i, In i (map id (remove_duplicate features)) <-> In i (map id features))
  /\ (forall f, In f (remove_duplicate features) ->
                find (fun g => String.eqb (id g) (id f)) features = Some f).
Proof.
  unfold remove_duplicate. split; [apply remove_duplicate_from_NoDup|]. split.
  - intros i. rewrite remove_duplicate_from_ids. simpl. tauto.
  - intros f. apply remove_duplicate_from_first.
Qed.

End Deduplication.

(** ** The checks of [extract_poi] *)

Section Configuration.
Context `{G : Globals} `{Wd : World}.

Lemma requests_get_outcome (r : Request) (st : State) :
  (exists body st', requests_get r st = Val body st' /\ trace st' = (trace st ++ [Get r])%list)
  \/ (exists st', requests_get r st = Exn ConnectionError st'
                  /\ trace st' = (trace st ++ [Get r])%list).
Proof.
  unfold requests_get. destruct (api r (world st)) as [[body|] w].
  - left. now eexists _, _.
  - right. now eexists.
Qed.

Lemma extract_poi_params_incomplete max_lat max_lng min_lat min_lng lat lng l h k :
  inputs_incomplete max_lat max_lng min_lat min_lng lat lng ->
  extract_poi_params max_lat max_lng min_lat min_lng lat lng l h k
  = Err (ValueError config_message).
Proof.
  unfold inputs_incomplete, nothing_supplied, box_complete, centre_complete.
  intros Hinc.
  destruct max_lat, max_lng, min_lat, min_lng, lat, lng; cbn;
    try reflexivity; exfalso;
    (destruct Hinc as [Hn | [Hb Hc]];
     [ intuition discriminate
     | first [ apply Hb; repeat split; discriminate
             | apply Hc; repeat split; discriminate ] ]).
Qed.

Lemma extract_poi_params_complete max_lat max_lng min_lat min_lng lat lng l h k :
  box_complete max_lat max_lng min_lat min_lng \/ centre_complete lat lng ->
  exists r, extract_poi_params max_lat max_lng min_lat min_lng lat lng l h k = Ok r.
Proof.
  unfold box_complete, centre_complete. intros Hc.
  destruct lat as [la|], lng as [ln|].
  - unfold extract_poi_params.
    replace (is_None _ && _ && _ && _ && is_None (Some la) && _) with false
      by (cbn; now rewrite !andb_false_r).
    cbn. destruct (translate_coordinate la ln l h) as [[[a b] c] d]. now eexists.
  - destruct Hc as [(Ha & Hb & Hc & Hd) | [_ Hl]]; [|congruence].
    destruct max_lat, max_lng, min_lat, min_lng; try congruence. cbn.
    destruct (identify_centroid _ _ _ _). now eexists.
  - destruct Hc as [(Ha & Hb & Hc & Hd) | [Hl _]]; [|congruence].
    destruct max_lat, max_lng, min_lat, min_lng; try congruence. cbn.
    destruct (identify_centroid _ _ _ _). now eexists.
  - destruct Hc as [(Ha & Hb & Hc & Hd) | [Hl _]]; [|congruence].
    destruct max_lat, max_lng, min_lat, min_lng; try congruence. cbn.
    destruct (identify_centroid _ _ _ _). now eexists.
Qed.

Lemma complete_or_incomplete max_lat max_lng min_lat min_lng lat lng :
  inputs_incomplete max_lat max_lng min_lat min_lng lat lng
  \/ box_complete max_lat max_lng min_lat min_lng \/ centre_complete lat lng.
Proof.
  unfold inputs_incomplete, nothing_supplied, box_complete, centre_complete.
  destruct lat, lng; try (right; right; split; discriminate);
    destruct max_lat, max_lng, min_lat, min_lng;
    try (right; left; repeat split; discriminate);
    left; right; split; intros Hc; decompose [and] Hc; congruence.
Qed.

(** C8: [extract_poi] raises the configuration error exactly when its
    inputs are incomplete (nothing supplied, or a box lacking an edge
    together with a centre lacking a coordinate), and it raises it before
    any request: the state, request trace included, is the one it was called
    in.  With a complete box or a complete centre the request is sent and no
    configuration error is raised. *)
Theorem extract_poi_configuration_error
    (max_lat max_lng min_lat min_lng lat lng : option Q) (l h : Q)
    (k : option string) (st : State) :
  (inputs_incomplete max_lat max_lng min_lat min_lng lat lng <->
   exists st', extract_poi max_lat max_lng min_lat min_lng lat lng l h k st
               = Exn (ValueError config_message) st')
  /\ (inputs_incomplete max_lat max_lng min_lat min_lng lat lng ->
      extract_poi max_lat max_lng min_lat min_lng lat lng l h k st
      = Exn (ValueError config_message) st)
  /\ (box_complete max_lat max_lng min_lat min_lng \/ centre_complete lat lng ->
      exists r, extract_poi max_lat max_lng min_lat min_lng lat lng l h k st
                = requests_get r st).
Proof.
  assert (Hinc : inputs_incomplete max_lat max_lng min_lat min_lng lat lng ->
                 extract_poi max_lat max_lng min_lat min_lng lat lng l h k st
                 = Exn (ValueError config_message) st).
  { intros Hi. unfold extract_poi.
    now rewrite (extract_poi_params_incomplete l h k Hi). }
  assert (Hcomp : box_complete max_lat max_lng min_lat min_lng
                  \/ centre_complete lat lng ->
                  exists r, extract_poi max_lat max_lng min_lat min_lng lat lng l h k st
                            = requests_get r st).
  { intros Hc. destruct (extract_poi_params_complete l h k Hc) as [r Hr].
    exists r. unfold extract_poi. now rewrite Hr. }
  split; [|split; assumption]. split.
  - intros Hi. exists st. now apply Hinc.
  - intros [st' Hraise].
    destruct (complete_or_incomplete max_lat max_lng min_lat min_lng lat lng)
      as [Hi | Hc]; [assumption | exfalso].
    destruct (Hcomp Hc) as [r Hr]. rewrite Hr in Hraise.
    destruct (requests_get_outcome r st) as [(b & s & Hv & _) | (s & He & _)];
      congruence.
Qed.

End Configuration.

(** ** The branches on a successful reply *)

Section Dispatch.
Context `{G : Globals} `{Wd : World}.

(** The chain of tests of lines 167-176, branch by branch. *)
Lemma dispatch_cases (self : subdivider) (coordinate : Coordinate)
    (querybox_dim : Q) (shapefile : list Polygon) (query_result : Response) :
  ((status query_result = "ZERO_RESULTS"
    \/ (List.length (results query_result) < 20)%nat)
   /\ dispatch self coordinate querybox_dim shapefile query_result
      = record_dimension querybox_dim)
  \/ ((20 <= List.length (results query_result))%nat
      /\ 2.5 <= querybox_dim / 2
      /\ dispatch self coordinate querybox_dim shapefile query_result
         = self (c2 coordinate) (c0 coordinate) (c3 coordinate) (c1 coordinate)
                (querybox_dim / 2) shapefile false)
  \/ ((20 <= List.length (results query_result))%nat
      /\ querybox_dim / 2 < 2.5
      /\ dispatch self coordinate querybox_dim shapefile query_result
         = record_dimension querybox_dim).
Proof.
  unfold dispatch.
  destruct (String.eqb (status query_result) "ZERO_RESULTS") eqn:Hzero.
  { left. apply String.eqb_eq in Hzero. auto. }
  destruct (Nat.ltb_spec (List.length (results query_result)) 20) as [Hlt|Hge].
  { left. auto. }
  right. cbn [orb].
  destruct (Nat.leb_spec 20 (List.length (results query_result))) as [_|Hlt];
    [|lia]. cbn [andb].
  destruct (Qge_bool (querybox_dim / 2) 2.5) eqn:Hhalf.
  { left. apply Qge_bool_iff in Hhalf. auto. }
  right.
  assert (Hlow : querybox_dim / 2 < 2.5).
  { apply Qnot_le_lt. intros Hle. apply Qge_bool_iff in Hle. congruence. }
  apply Qlt_bool_iff in Hlow as Hb. rewrite Hb. auto.
Qed.

End Dispatch.

(** ** Formatting a batch of raw hits *)

Section FormattingProperties.
Context `{G : Globals} `{Wd : World}.

Lemma has_key_getitem (d : json) (k : string) :
  has_key d k = true -> exists v, getitem d k = Ok v.
Proof.
  destruct d; cbn; try discriminate.
  destruct (assoc k l); [now eexists | discriminate].
Qed.

Lemma getitem_has_key (d : json) (k : string) (v : json) :
  getitem d k = Ok v -> has_key d k = true.
Proof.
  destruct d; cbn; try discriminate. now destruct (assoc k l).
Qed.

Lemma format_hit_location_error (w : W) (hit : json) (e : exn) :
  hit_location hit = Err e -> format_hit w hit = Err e.
Proof.
  unfold hit_location, format_hit.
  destruct (getitem hit "geometry") as [geom|]; cbn; [|congruence].
  destruct (getitem geom "location") as [loc|]; cbn; [|congruence].
  destruct (getitem loc "lat") as [lat|]; cbn; [|congruence].
  destruct (getitem loc "lng") as [lng|]; cbn; congruence.
Qed.

Lemma hit_geometry_location (geom lat lng : json) (g : Geometry) :
  hit_geometry geom lat lng = Ok g -> location g = (lat, lng).
Proof.
  unfold hit_geometry. destruct (has_key geom "bounds").
  - repeat match goal with
           | |- context [rbind (getitem ?d ?k) _] => destruct (getitem d k); cbn
           end; try discriminate.
    now intros [= <-].
  - now intros [= <-].
Qed.

Lemma format_hit_outside (w : W) (hit : json) :
  format_hit w hit = Ok None -> in_global_box hit = false.
Proof.
  unfold in_global_box, located_in, hit_location, format_hit.
  destruct (getitem hit "geometry") as [geom|]; cbn; [|congruence].
  destruct (getitem geom "location") as [loc|]; cbn; [|congruence].
  destruct (getitem loc "lat") as [lat|]; cbn; [|congruence].
  destruct (getitem loc "lng") as [lng|]; cbn; [|congruence].
  destruct (within_boundary_area lat lng min_lat max_lat min_lng max_lng)
    as [[|]|]; cbn; try congruence.
  destruct (hit_geometry geom lat lng); cbn; [|congruence].
  destruct (hit_address hit); cbn; [|congruence].
  destruct (getitem hit "types"); cbn; [|congruence].
  destruct (getitem hit "place_id"); cbn; congruence.
Qed.

Lemma format_hit_inside (w : W) (hit : json) (f : Feature) :
  format_hit w hit = Ok (Some f) ->
  in_global_box hit = true /\ hit_location hit = Ok (location (geometry f)).
Proof.
  unfold in_global_box, located_in, hit_location, format_hit.
  destruct (getitem hit "geometry") as [geom|]; cbn; [|congruence].
  destruct (getitem geom "location") as [loc|]; cbn; [|congruence].
  destruct (getitem loc "lat") as [lat|]; cbn; [|congruence].
  destruct (getitem loc "lng") as [lng|]; cbn; [|congruence].
  destruct (within_boundary_area lat lng min_lat max_lat min_lng max_lng)
    as [[|]|]; cbn; try congruence.
  destruct (hit_geometry geom lat lng) as [g|] eqn:Hg; cbn; [|congruence].
  destruct (hit_address hit); cbn; [|congruence].
  destruct (getitem hit "types"); cbn; [|congruence].
  destruct (getitem hit "place_id"); cbn; [|congruence].
  intros [= <-]. cbn. rewrite (hit_geometry_location _ _ _ Hg). auto.
Qed.

Lemma format_hit_missing_id (w : W) (hit : json) :
  in_global_box hit = true -> has_key hit "place_id" = false ->
  exists e, format_hit w hit = Err e.
Proof.
  unfold in_global_box, located_in, hit_location, format_hit.
  destruct (getitem hit "geometry") as [geom|]; cbn; [|congruence].
  destruct (getitem geom "location") as [loc|]; cbn; [|congruence].
  destruct (getitem loc "lat") as [lat|]; cbn; [|congruence].
  destruct (getitem loc "lng") as [lng|]; cbn; [|congruence].
  destruct (within_boundary_area lat lng min_lat max_lat min_lng max_lng)
    as [[|]|]; cbn; try congruence.
  intros _ Hid.
  destruct (hit_geometry geom lat lng); cbn; [|now eexists].
  destruct (hit_address hit); cbn; [|now eexists].
  destruct (getitem hit "types"); cbn; [|now eexists].
  destruct (getitem hit "place_id") eqn:Hp; cbn; [|now eexists].
  apply getitem_has_key in Hp. congruence.
Qed.

Lemma hit_geometry_complete (geom lat lng : json) :
  negb (has_key geom "bounds")
  || match getitem geom "bounds" with
     | Ok bounds =>
         corner_present bounds "northeast" "lat"
         && corner_present bounds "northeast" "lng"
         && corner_present bounds "southwest" "lat"
         && corner_present bounds "southwest" "lng"
     | Err _ => false
     end = true ->
  exists g, hit_geometry geom lat lng = Ok g.
Proof.
  unfold hit_geometry, corner_present.
  destruct (has_key geom "bounds"); cbn; [|now eexists].
  destruct (getitem geom "bounds") as [bounds|]; cbn; [|discriminate].
  destruct (getitem bounds "northeast") as [ne|]; cbn; [|discriminate].
  destruct (getitem ne "lat"); cbn; [|discriminate].
  destruct (getitem ne "lng"); cbn; [|discriminate].
  destruct (getitem bounds "southwest") as [sw|]; cbn; [|discriminate].
  destruct (getitem sw "lat"); cbn; [|discriminate].
  destruct (getitem sw "lng"); cbn; [|discriminate].
  now eexists.
Qed.

Lemma hit_address_total (hit : json) : exists a, hit_address hit = Ok a.
Proof.
  unfold hit_address. destruct (has_key hit "vicinity") eqn:Hv; [|now eexists].
  destruct (has_key_getitem _ _ Hv) as [v ->]. now eexists.
Qed.

Lemma format_hit_well_formed (w : W) (hit : json) :
  well_formed hit = true -> exists r, format_hit w hit = Ok r.
Proof.
  unfold well_formed, hit_location, format_hit.
  destruct (getitem hit "geometry") as [geom|]; cbn; [|congruence].
  destruct (getitem geom "location") as [loc|]; cbn; [|congruence].
  destruct (getitem loc "lat") as [lat|]; cbn; [|congruence].
  destruct (getitem loc "lng") as [lng|]; cbn; [|congruence].
  rewrite !andb_true_iff. intros [[[[Hlat Hlng] Hb] Ht] Hp].
  unfold within_boundary_area.
  destruct (coordinate_value lat); [|discriminate].
  destruct (coordinate_value lng); [|discriminate]. cbn.
  match goal with |- context [negb ?b] => destruct b end; cbn; [|now eexists].
  destruct (hit_geometry_complete geom lat lng Hb) as [g ->].
  destruct (hit_address_total hit) as [addr ->].
  destruct (has_key_getitem _ _ Ht) as [tys ->].
  destruct (has_key_getitem _ _ Hp) as [pid ->]. cbn. now eexists.
Qed.

Lemma format_query_result_error (w : W) (hits : list json) (hit : json) (e : exn) :
  In hit hits -> format_hit w hit = Err e ->
  exists e', format_query_result w hits = Err e'.
Proof.
  induction hits as [|h rest IH]; [contradiction|].
  intros [->|Hin] He; cbn.
  - rewrite He. now eexists.
  - destruct (format_hit w h); cbn; [|now eexists].
    destruct (IH Hin He) as [e' ->]. now eexists.
Qed.

Lemma format_query_result_kept (w : W) (hits : list json) (fs : list Feature) :
  format_query_result w hits = Ok fs ->
  Forall2 (fun hit f => format_hit w hit = Ok (Some f))
          (filter in_global_box hits) fs.
Proof.
  revert fs. induction hits as [|h rest IH]; intros fs; cbn.
  - intros [= <-]. constructor.
  - destruct (format_hit w h) as [[f|]|] eqn:Hh; cbn; [| |discriminate];
      destruct (format_query_result w rest) as [poi_data|]; cbn;
      try discriminate; intros [= <-].
    + destruct (format_hit_inside _ _ Hh) as [-> _].
      constructor; [assumption | now apply IH].
    + rewrite (format_hit_outside _ _ Hh). now apply IH.
Qed.

Lemma format_query_result_well_formed (w : W) (hits : list json) :
  Forall (fun hit => well_formed hit = true) hits ->
  exists fs, format_query_result w hits = Ok fs.
Proof.
  induction 1 as [|h rest Hh _ IH]; cbn; [now eexists|].
  destruct (format_hit_well_formed w _ Hh) as [r ->].
  destruct IH as [fs ->]. cbn. now eexists.
Qed.

(** C2 (amended): a raw hit that lacks a required field is not dropped on
    its own.  When a hit of the batch has no location, or lies in the global
    box and has no 'place_id', [format_query_result] raises and returns no
    record at all, not even those of the well-formed hits; it returns
    records, one for each hit inside the global box and in their order, when
    every hit of the batch is well-formed. *)
Theorem format_query_result_all_or_nothing (w : W) (hits : list json) :
  (forall hit, In hit hits ->
     (exists e, hit_location hit = Err e)
     \/ (in_global_box hit = true /\ has_key hit "place_id" = false) ->
     exists e, format_query_result w hits = Err e)
  /\ (Forall (fun hit => well_formed hit = true) hits ->
      exists fs, format_query_result w hits = Ok fs
                 /\ Forall2 (fun hit f => format_hit w hit = Ok (Some f))
                            (filter in_global_box hits) fs).
Proof.
  split.
  - intros hit Hin [[e He] | [Hbox Hid]].
    + apply format_query_result_error with hit e; [assumption|].
      now apply format_hit_location_error.
    + destruct (format_hit_missing_id w hit Hbox Hid) as [e He].
      now apply format_query_result_error with hit e.
  - intros Hwf. destruct (format_query_result_well_formed w Hwf) as [fs Hfs].
    exists fs. split; [assumption | now apply format_query_result_kept].
Qed.

(** C3 (amended): the hits are tested against the box of the module globals
    [min_lat], [max_lat], [min_lng], [max_lng], not against the box of the
    tile that was queried, of which [format_query_result] knows nothing: the
    records it returns are those of the hits located inside the global box,
    in their order, each with the location of its hit; a hit outside the
    global box is discarded before its record is built. *)
Theorem format_query_result_keeps_global_box (w : W) (hits : list json)
    (fs : list Feature) :
  format_query_result w hits = Ok fs ->
  Forall2 (fun hit f => format_hit w hit = Ok (Some f)
                        /\ hit_location hit = Ok (location (geometry f)))
          (filter in_global_box hits) fs.
Proof.
  intros Hfs. apply format_query_result_kept in Hfs.
  induction Hfs as [|hit f hs fs' Hhit _ IH]; constructor; [|assumption].
  split; [assumption | now apply format_hit_inside in Hhit].
Qed.

End FormattingProperties.

(** ** The retry loop and the recursion *)

Section Runs.
Context `{G : Globals} `{Wd : World}.
Local Open Scope monad_scope.

Lemma bind_ext {A B} (m : M A) (k1 k2 : A -> M B) (st : State) :
  (forall a s, k1 a s = k2 a s) -> bind m k1 st = bind m k2 st.
Proof. intros Hk. unfold bind. destruct (m st); auto. Qed.

Lemma extract_poi_tile (tile : Coordinate) (st : State) :
  extract_poi (Some (c2 tile)) (Some (c3 tile)) (Some (c0 tile)) (Some (c1 tile))
              None None 50 50 (Some api_key) st
  = requests_get (tile_request tile) st.
Proof.
  unfold extract_poi, extract_poi_params, tile_request. cbn.
  destruct (identify_centroid (c2 tile) (c3 tile) (c0 tile) (c1 tile)).
  reflexivity.
Qed.

(** One iteration of the retry loop, by the reply of the service. *)
Lemma query_loop_step (self : subdivider) (fuel : nat) (coordinate : Coordinate)
    (querybox_dim : Q) (shapefile : list Polygon) (st : State) :
  query_loop self (S fuel) coordinate querybox_dim shapefile st =
  match api (tile_request coordinate) (world st) with
  | (Answer query_result, w) =>
      if succeeded query_result then
        resolve self coordinate querybox_dim shapefile query_result
                (after_sleep 1 (after_reply (tile_request coordinate) w st))
      else
        query_loop self fuel coordinate querybox_dim shapefile
          (after_pause (Pausing wait_time)
                       (after_reply (tile_request coordinate) w st))
  | (ConnectionFailure, w) =>
      query_loop self fuel coordinate querybox_dim shapefile
        (after_pause (ConnectionPausing wait_time)
                     (after_reply (tile_request coordinate) w st))
  end.
Proof.
  cbn [query_loop]. unfold bind at 1. unfold try_except at 1. unfold bind at 1.
  rewrite extract_poi_tile. unfold requests_get.
  destruct (api (tile_request coordinate) (world st)) as [[query_result|] w].
  - cbn. destruct (succeeded query_result); reflexivity.
  - reflexivity.
Qed.

(** *** The shapefile argument *)

Lemma dispatch_shapefile (self1 self2 : subdivider) (sf1 sf2 : list Polygon)
    (coordinate : Coordinate) (querybox_dim : Q) (query_result : Response)
    (st : State) :
  (forall a b c d e pp s, self1 a b c d e sf1 pp s = self2 a b c d e sf2 pp s) ->
  dispatch self1 coordinate querybox_dim sf1 query_result st
  = dispatch self2 coordinate querybox_dim sf2 query_result st.
Proof.
  intros Hself. unfold dispatch.
  repeat match goal with
         | |- context [if ?b then _ else _] => destruct b
         end; auto.
Qed.

Lemma query_loop_shapefile (self1 self2 : subdivider) (sf1 sf2 : list Polygon) :
  (forall a b c d e pp s, self1 a b c d e sf1 pp s = self2 a b c d e sf2 pp s) ->
  forall fuel coordinate querybox_dim st,
    query_loop self1 fuel coordinate querybox_dim sf1 st
    = query_loop self2 fuel coordinate querybox_dim sf2 st.
Proof.
  intros Hself. induction fuel as [|fuel IH]; intros coordinate d st;
    [reflexivity|].
  rewrite !query_loop_step.
  destruct (api (tile_request coordinate) (world st)) as [[query_result|] w];
    [|apply IH].
  destruct (succeeded query_result); [|apply IH].
  unfold resolve, bind, try_except.
  now rewrite dispatch_shapefile with (self2 := self2) (sf2 := sf2).
Qed.

Lemma for_coordinates_shapefile (self1 self2 : subdivider)
    (sf1 sf2 : list Polygon) :
  (forall a b c d e pp s, self1 a b c d e sf1 pp s = self2 a b c d e sf2 pp s) ->
  forall fuel total querybox_dim pp coordinate_list i st,
    for_coordinates self1 fuel total querybox_dim sf1 pp i coordinate_list st
    = for_coordinates self2 fuel total querybox_dim sf2 pp i coordinate_list st.
Proof.
  intros Hself fuel total d pp coordinate_list.
  induction coordinate_list as [|c rest IH]; intros i st; [reflexivity|].
  cbn [for_coordinates]. apply bind_ext; intros _ s1.
  apply bind_ext; intros _ s2. unfold bind at 1 3.
  rewrite query_loop_shapefile with (self2 := self2) (sf2 := sf2) by assumption.
  destruct (query_loop self2 fuel c d sf2 s2); try reflexivity.
  apply bind_ext; intros _ s3. apply IH.
Qed.

(** C10: the [shapefile] argument of [variable_bounding_box] has no effect.
    The tiles are filtered with the global [shapefile_tampines] and the
    argument is only handed on to the recursive call, so two runs that
    differ in nothing but this argument have the same outcome: the same
    requests in the same order (they are in the trace of the state), the
    same recorded edges and the same output file. *)
Theorem variable_bounding_box_ignores_shapefile (fuel : nat)
    (max_lat min_lat max_lng min_lng querybox_dim : Q)
    (shapefile1 shapefile2 : list Polygon) (print_progress : bool) (st : State) :
  variable_bounding_box fuel max_lat min_lat max_lng min_lng querybox_dim
                        shapefile1 print_progress st
  = variable_bounding_box fuel max_lat min_lat max_lng min_lng querybox_dim
                          shapefile2 print_progress st.
Proof.
  revert max_lat min_lat max_lng min_lng querybox_dim print_progress st.
  induction fuel as [|fuel IH]; intros; [reflexivity|].
  cbn [variable_bounding_box]. apply for_coordinates_shapefile.
  intros. apply IH.
Qed.

(** *** Retries *)

Lemma connection_failures_frame (k : nat) (r : Request) (st st' : State) :
  connection_failures k r st = Some st' ->
  num_queries st' = num_queries st
  /\ box_dimensions st' = box_dimensions st
  /\ output_file st' = output_file st
  /\ trace st' = (trace st
                  ++ List.concat (repeat (retry_events r (ConnectionPausing wait_time)) k))%list.
Proof.
  revert st. induction k as [|k IH]; intros st; cbn.
  - intros [= <-]. now rewrite app_nil_r.
  - destruct (api r (world st)) as [[body|] w]; [discriminate|].
    intros Hk. apply IH in Hk. cbn in Hk.
    destruct Hk as (-> & -> & -> & ->). repeat split.
    now rewrite <- !app_assoc.
Qed.

Lemma failed_attempts_frame (k : nat) (r : Request) (st st' : State) :
  failed_attempts k r st = Some st' ->
  num_queries st' = num_queries st
  /\ box_dimensions st' = box_dimensions st
  /\ output_file st' = output_file st.
Proof.
  revert st. induction k as [|k IH]; intros st; cbn.
  - now intros [= <-].
  - destruct (api r (world st)) as [[body|] w].
    + destruct (succeeded body); [discriminate|]. intros Hk. now apply IH in Hk.
    + intros Hk. now apply IH in Hk.
Qed.

Lemma failed_attempts_loop (self : subdivider) (k : nat) (coordinate : Coordinate)
    (querybox_dim : Q) (shapefile : list Polygon) (st st' : State) (n : nat) :
  failed_attempts k (tile_request coordinate) st = Some st' ->
  query_loop self (k + n) coordinate querybox_dim shapefile st
  = query_loop self n coordinate querybox_dim shapefile st'.
Proof.
  revert st. induction k as [|k IH]; intros st Hk; cbn in Hk.
  - now injection Hk as <-.
  - cbn [Nat.add]. rewrite query_loop_step.
    destruct (api (tile_request coordinate) (world st)) as [[body|] w].
    + destruct (succeeded body); [discriminate | now apply IH].
    + now apply IH.
Qed.

(** The loop over the tiles, unfolded on a tile whose query succeeds after
    [k] failed attempts. *)
Lemma tile_after_failed_attempts (self : subdivider) (k n total i : nat)
    (coordinate : Coordinate) (rest : list Coordinate) (querybox_dim : Q)
    (shapefile : list Polygon) (print_progress : bool)
    (st st1 : State) (query_result : Response) (w : W) :
  failed_attempts k (tile_request coordinate)
                  (tile_started print_progress i total st) = Some st1 ->
  api (tile_request coordinate) (world st1) = (Answer query_result, w) ->
  succeeded query_result = true ->
  for_coordinates self (k + S n) total querybox_dim shapefile print_progress i
                  (coordinate :: rest) st
  = (resolve self coordinate querybox_dim shapefile query_result ;;
     store query_result ;;
     for_coordinates self (k + S n) total querybox_dim shapefile print_progress
                     (S i) rest)
      (after_sleep 1 (after_reply (tile_request coordinate) w st1))
  /\ output_file st1 = output_file st
  /\ box_dimensions st1 = box_dimensions st
  /\ num_queries st1 = S (num_queries st).
Proof.
  intros Hk Hreply Hok. split.
  - cbn [for_coordinates]. unfold bind at 1.
    replace ((if print_progress then print (Processing i total) else ret tt) st)
      with (Val tt (if print_progress
                    then log (Print (Processing i total)) st else st))
      by now destruct print_progress.
    unfold bind at 1. unfold increment_num_queries at 1.
    fold (tile_started print_progress i total st).
    unfold bind at 1.
    rewrite failed_attempts_loop with (st' := st1) by assumption.
    rewrite query_loop_step, Hreply, Hok.
    unfold resolve, bind, ret.
    destruct (try_except _ _ _); reflexivity.
  - apply failed_attempts_frame in Hk. destruct Hk as (Hn & Hb & Ho).
    rewrite Ho, Hb, Hn. unfold tile_started.
    now destruct print_progress.
Qed.

Lemma store_collection (query_result : Response) (st : State)
    (features poi_data : list Feature) :
  status query_result = "OK" ->
  results query_result <> [] ->
  output_file st = Collection features ->
  format_query_result (world st) (results query_result) = Ok poi_data ->
  store query_result st
  = Val tt (set_output_file (Collection (features ++ poi_data)) st).
Proof.
  intros Hstatus Hresults Hfile Hformat. unfold store. rewrite Hstatus.
  destruct (results query_result) as [|hit hits]; [contradiction|].
  cbn [String.eqb Ascii.eqb Bool.eqb]. now rewrite Hfile, Hformat.
Qed.

(** What [store] writes: the records of the reply, after the features the
    file holds, or alone in a new file. *)
Lemma store_writes (query_result : Response) (st : State)
    (poi_data : list Feature) :
  status query_result = "OK" ->
  results query_result <> [] ->
  output_file st <> Truncated ->
  format_query_result (world st) (results query_result) = Ok poi_data ->
  store query_result st
  = Val tt (set_output_file
              (Collection (file_features (output_file st) ++ poi_data)) st).
Proof.
  intros Hstatus Hresults Hfile Hformat. unfold store. rewrite Hstatus.
  destruct (results query_result) as [|hit hits]; [contradiction|].
  cbn [String.eqb Ascii.eqb Bool.eqb]. rewrite Hformat.
  now destruct (output_file st).
Qed.

Lemma store_nothing (query_result : Response) (st : State) :
  status query_result = "ZERO_RESULTS" \/ results query_result = [] ->
  store query_result st = Val tt st.
Proof.
  unfold store. intros [Hz|Hr].
  - now rewrite Hz.
  - rewrite Hr. now destruct (String.eqb (status query_result) "ZERO_RESULTS").
Qed.

(** [resolve] when the tile is final: the edge is recorded. *)
Lemma resolve_records (self : subdivider) (coordinate : Coordinate) (d : Q)
    (shapefile : list Polygon) (query_result : Response) (st : State) :
  status query_result = "ZERO_RESULTS"
  \/ (List.length (results query_result) < 20)%nat
  \/ d / 2 < 2.5 ->
  resolve self coordinate d shapefile query_result st
  = Val query_result (set_box_dimensions (box_dimensions st ++ [d]) st).
Proof.
  intros Hfinal.
  assert (Hd : dispatch self coordinate d shapefile query_result
               = record_dimension d).
  { destruct Hfinal as [Hz|[Hlt|Hlow]].
    - unfold dispatch. now rewrite Hz.
    - destruct (dispatch_cases self coordinate d shapefile query_result)
        as [[_ Hd] | [(Hge & _) | (Hge & _)]]; [assumption | lia | lia].
    - destruct (dispatch_cases self coordinate d shapefile query_result)
        as [[_ Hd] | [(_ & Hhalf & _) | (_ & _ & Hd)]];
        [assumption | now apply Qlt_not_le in Hlow | assumption]. }
  unfold resolve, bind, try_except. now rewrite Hd.
Qed.

(** [resolve] when the tile is subdivided: the recursive call is made. *)
Lemma resolve_recurses (self : subdivider) (coordinate : Coordinate) (d : Q)
    (shapefile : list Polygon) (query_result : Response) (st st2 : State) :
  status query_result = "OK" ->
  (20 <= List.length (results query_result))%nat ->
  2.5 <= d / 2 ->
  self (c2 coordinate) (c0 coordinate) (c3 coordinate) (c1 coordinate) (d / 2)
       shapefile false st = Val tt st2 ->
  resolve self coordinate d shapefile query_result st = Val query_result st2.
Proof.
  intros Hstatus Hlen Hhalf Hrun.
  destruct (dispatch_cases self coordinate d shapefile query_result)
    as [[[Hz|Hlt] _] | [(_ & _ & Hd) | (_ & Hlow & _)]];
    [ rewrite Hstatus in Hz; discriminate | lia |
    | now apply Qlt_not_le in Hlow ].
  unfold resolve, bind, try_except. now rewrite Hd, Hrun.
Qed.

Lemma results_nonempty (query_result : Response) :
  (20 <= List.length (results query_result))%nat -> results query_result <> [].
Proof. intros Hlen Hnil. rewrite Hnil in Hlen. cbn in Hlen. lia. Qed.

(** C6: a tile whose query fails [k] times (rate-limited or refused
    replies, connection errors) and then succeeds has its records written
    once, from the reply that succeeded.  The failed attempts leave the
    output file, the recorded edges and the query count as they were, and
    what remains of the tile after the successful reply is [resolve]
    followed by a single [store] of that reply.  The output file after the
    tile is pinned in each case.  When the tile is final (fewer than 20
    results, or half the edge below 2.5), the file holds the features it
    held before the tile (none if there was no file) followed by the records
    of the reply, once.  When the tile is subdivided, the file holds what the
    recursive call left followed by the records of the reply, once.  When the
    reply has no results, nothing is written. *)
Theorem retried_tile_stored_once (self : subdivider) (k n total i : nat)
    (coordinate : Coordinate) (rest : list Coordinate) (querybox_dim : Q)
    (shapefile : list Polygon) (print_progress : bool)
    (st st1 : State) (query_result : Response) (w : W) :
  failed_attempts k (tile_request coordinate)
                  (tile_started print_progress i total st) = Some st1 ->
  api (tile_request coordinate) (world st1) = (Answer query_result, w) ->
  succeeded query_result = true ->
  (for_coordinates self (k + S n) total querybox_dim shapefile print_progress i
                   (coordinate :: rest) st
   = (resolve self coordinate querybox_dim shapefile query_result ;;
      store query_result ;;
      for_coordinates self (k + S n) total querybox_dim shapefile print_progress
                      (S i) rest)
       (after_sleep 1 (after_reply (tile_request coordinate) w st1))
   /\ output_file st1 = output_file st
   /\ box_dimensions st1 = box_dimensions st
   /\ num_queries st1 = S (num_queries st))
  /\ (forall poi_data,
        status query_result = "OK" ->
        results query_result <> [] ->
        (List.length (results query_result) < 20)%nat \/ querybox_dim / 2 < 2.5 ->
        output_file st <> Truncated ->
        format_query_result (elapse 1 w) (results query_result) = Ok poi_data ->
        for_coordinates self (k + S n) total querybox_dim shapefile
                        print_progress i (coordinate :: rest) st
        = for_coordinates self (k + S n) total querybox_dim shapefile
                          print_progress (S i) rest
            (set_output_file
               (Collection (file_features (output_file st) ++ poi_data))
               (set_box_dimensions
                  (box_dimensions st ++ [querybox_dim])
                  (after_sleep 1 (after_reply (tile_request coordinate) w st1)))))
  /\ (forall st2 poi_data,
        status query_result = "OK" ->
        (20 <= List.length (results query_result))%nat ->
        2.5 <= querybox_dim / 2 ->
        self (c2 coordinate) (c0 coordinate) (c3 coordinate) (c1 coordinate)
             (querybox_dim / 2) shapefile false
             (after_sleep 1 (after_reply (tile_request coordinate) w st1))
        = Val tt st2 ->
        output_file st2 <> Truncated ->
        format_query_result (world st2) (results query_result) = Ok poi_data ->
        for_coordinates self (k + S n) total querybox_dim shapefile
                        print_progress i (coordinate :: rest) st
        = for_coordinates self (k + S n) total querybox_dim shapefile
                          print_progress (S i) rest
            (set_output_file
               (Collection (file_features (output_file st2) ++ poi_data)) st2))
  /\ (status query_result = "ZERO_RESULTS" \/ results query_result = [] ->
      for_coordinates self (k + S n) total querybox_dim shapefile
                      print_progress i (coordinate :: rest) st
      = for_coordinates self (k + S n) total querybox_dim shapefile
                        print_progress (S i) rest
          (set_box_dimensions
             (box_dimensions st ++ [querybox_dim])
             (after_sleep 1 (after_reply (tile_request coordinate) w st1)))).
Proof.
  intros Hk Hreply Hok.
  destruct (tile_after_failed_attempts self k n total i coordinate rest
              querybox_dim shapefile print_progress st Hk Hreply Hok)
    as (Heq & Ho & Hb & Hn).
  split; [now repeat split|].
  set (st1' := after_sleep 1 (after_reply (tile_request coordinate) w st1)) in *.
  assert (Hb' : box_dimensions st1' = box_dimensions st) by exact Hb.
  assert (Ho' : output_file st1' = output_file st) by exact Ho.
  assert (Hw' : world st1' = elapse 1 w) by reflexivity.
  clearbody st1'. rewrite Heq. unfold bind. split; [|split].
  - intros poi_data Hstatus Hresults Hfinal Hfile Hformat.
    rewrite resolve_records by tauto.
    rewrite store_writes with (poi_data := poi_data); try assumption.
    + cbn [output_file set_box_dimensions]. now rewrite Ho', Hb'.
    + cbn [output_file set_box_dimensions]. now rewrite Ho'.
    + cbn [world set_box_dimensions]. now rewrite Hw'.
  - intros st2 poi_data Hstatus Hlen Hhalf Hrun Hfile Hformat.
    rewrite resolve_recurses with (st2 := st2) by assumption.
    rewrite store_writes with (poi_data := poi_data);
      auto using results_nonempty.
  - intros Hnothing.
    rewrite resolve_records.
    + rewrite store_nothing by assumption. now rewrite Hb'.
    + destruct Hnothing as [Hz|Hr]; [now left|]. right. left.
      rewrite Hr. cbn. lia.
Qed.

(** *** What a run records and raises *)

Lemma grows_refl (P : Q -> Prop) (st st' : State) :
  box_dimensions st' = box_dimensions st -> grows P st st'.
Proof.
  intros Heq. exists []. unfold recorded. rewrite app_nil_r. now split.
Qed.

Lemma grows_trans (P : Q -> Prop) (st1 st2 st3 : State) :
  grows P st1 st2 -> grows P st2 st3 -> grows P st1 st3.
Proof.
  intros (n1 & H1 & F1) (n2 & H2 & F2). exists (n1 ++ n2)%list.
  unfold recorded in *. rewrite H2, H1, app_assoc. split; [reflexivity|].
  apply Forall_app. now split.
Qed.

Lemma grows_trans_ensures (P : Q -> Prop) (E : exn -> Prop) {A} (m : M A)
    (st st' : State) :
  grows P st st' -> ensures P E m st' ->
  match m st' with
  | Val _ s => grows P st s
  | Exn e s => E e /\ grows P st s
  | OutOfFuel => True
  end.
Proof.
  unfold ensures. intros Hg. destruct (m st') as [a s|e s|]; auto.
  - intros Hs. eapply grows_trans; eassumption.
  - intros [He Hs]. split; [assumption | eapply grows_trans; eassumption].
Qed.

Lemma ensures_bind (P : Q -> Prop) (E : exn -> Prop) {A B} (m : M A)
    (k : A -> M B) (st : State) :
  ensures P E m st -> (forall a s, ensures P E (k a) s) ->
  ensures P E (bind m k) st.
Proof.
  unfold ensures, bind. intros Hm Hk. destruct (m st) as [a s|e s|]; auto.
  specialize (Hk a s). destruct (k a s) as [b s'|e s'|]; auto.
  - eapply grows_trans; eassumption.
  - destruct Hk. split; [assumption | eapply grows_trans; eassumption].
Qed.

Lemma ensures_try_except (P : Q -> Prop) (E E' : exn -> Prop) {A} (m h : M A)
    (st : State) :
  ensures P E' m st ->
  (forall e, E' e -> e = ConnectionError \/ E e) ->
  (forall s, ensures P E h s) ->
  ensures P E (try_except m h) st.
Proof.
  unfold ensures, try_except. intros Hm HE Hh.
  destruct (m st) as [a s|e s|]; auto. destruct Hm as [He Hg].
  destruct e; try (destruct (HE _ He); [discriminate | now split]).
  specialize (Hh s). destruct (h s) as [a s'|e s'|]; auto.
  - eapply grows_trans; eassumption.
  - destruct Hh. split; [assumption | eapply grows_trans; eassumption].
Qed.

Lemma ensures_weaken (P : Q -> Prop) (E E' : exn -> Prop) {A} (m : M A)
    (st : State) :
  ensures P E m st -> (forall e, E e -> E' e) -> ensures P E' m st.
Proof.
  unfold ensures. destruct (m st); auto. intros [He Hg] HE. auto.
Qed.

Lemma ensures_pause (P : Q -> Prop) (E : exn -> Prop) (m : Message) (st : State) :
  ensures P E (pause m) st.
Proof. now apply grows_refl. Qed.

Lemma ensures_record_dimension (P : Q -> Prop) (E : exn -> Prop) (d : Q)
    (st : State) :
  P d -> ensures P E (record_dimension d) st.
Proof. intros Hd. exists [d]. split; [reflexivity | now constructor]. Qed.

Lemma within_boundary_area_exn lat lng a b c d e :
  within_boundary_area lat lng a b c d = Err e -> e = TypeError.
Proof.
  unfold within_boundary_area, coordinate_value, as_number.
  destruct lat as [| |[|]| | | |]; cbn; try congruence;
    destruct lng as [| |[|]| | | |]; cbn; congruence.
Qed.

Lemma getitem_exn (d : json) (k : string) (e : exn) :
  getitem d k = Err e -> e = TypeError \/ exists k', e = KeyError k'.
Proof.
  destruct d; cbn; try (intros [= <-]; now left).
  destruct (assoc k l); [discriminate|]. intros [= <-]. right. now eexists.
Qed.

Lemma format_hit_exn (w : W) (hit : json) (e : exn) :
  format_hit w hit = Err e -> e = TypeError \/ exists k, e = KeyError k.
Proof.
  unfold format_hit, hit_geometry, hit_address.
  repeat match goal with
         | |- context [rbind (getitem ?d ?k) _] =>
             let H := fresh in
             destruct (getitem d k) eqn:H; cbn;
             [clear H | intros [= <-]; now apply getitem_exn in H]
         | |- context [rbind (within_boundary_area ?a ?b ?c ?d ?e ?f) _] =>
             let H := fresh in
             destruct (within_boundary_area a b c d e f) as [[|]|] eqn:H; cbn;
             [clear H | clear H
             | intros [= <-]; left; now apply within_boundary_area_exn in H]
         | |- context [if has_key ?d ?k then _ else _] =>
             destruct (has_key d k); cbn
         end; discriminate.
Qed.

Lemma format_query_result_exn (w : W) (hits : list json) (e : exn) :
  format_query_result w hits = Err e -> store_exn e.
Proof.
  unfold store_exn. induction hits as [|h rest IH]; cbn; [discriminate|].
  destruct (format_hit w h) eqn:Hh; cbn.
  - destruct (format_query_result w rest); cbn; [discriminate|].
    intros [= <-]. destruct IH as [?|[?|?]]; auto.
  - intros [= <-]. apply format_hit_exn in Hh. tauto.
Qed.

Lemma ensures_store (P : Q -> Prop) (query_result : Response) (st : State) :
  ensures P store_exn (store query_result) st.
Proof.
  unfold ensures, store.
  destruct (String.eqb (status query_result) "ZERO_RESULTS");
    [now apply grows_refl|].
  destruct (results query_result) as [|hit hits]; [now apply grows_refl|].
  destruct (output_file st).
  - destruct (format_query_result (world st) (hit :: hits)) eqn:Hf.
    + now apply grows_refl.
    + split; [eapply format_query_result_exn; eassumption | now apply grows_refl].
  - split; [unfold store_exn; auto | now apply grows_refl].
  - destruct (format_query_result (world st) (hit :: hits)) eqn:Hf.
    + now apply grows_refl.
    + split; [eapply format_query_result_exn; eassumption | now apply grows_refl].
Qed.

Lemma ensures_dispatch (P : Q -> Prop) (E : exn -> Prop) (self : subdivider)
    (coordinate : Coordinate) (d : Q) (shapefile : list Polygon)
    (query_result : Response) (st : State) :
  P d ->
  (2.5 <= d / 2 ->
   ensures P E (self (c2 coordinate) (c0 coordinate) (c3 coordinate)
                     (c1 coordinate) (d / 2) shapefile false) st) ->
  ensures P E (dispatch self coordinate d shapefile query_result) st.
Proof.
  intros Hd Hself.
  destruct (dispatch_cases self coordinate d shapefile query_result)
    as [[_ Heq] | [(_ & Hhalf & Heq) | (_ & _ & Heq)]];
    unfold ensures; rewrite Heq.
  - now apply ensures_record_dimension.
  - now apply Hself.
  - now apply ensures_record_dimension.
Qed.

Lemma ensures_query_loop (P : Q -> Prop) (self : subdivider)
    (coordinate : Coordinate) (d : Q) (shapefile : list Polygon) :
  P d ->
  (2.5 <= d / 2 ->
   forall s, ensures P store_exn
               (self (c2 coordinate) (c0 coordinate) (c3 coordinate)
                     (c1 coordinate) (d / 2) shapefile false) s) ->
  forall fuel st,
    ensures P store_exn (query_loop self fuel coordinate d shapefile) st.
Proof.
  intros Hd Hself. induction fuel as [|fuel IH]; intros st; [exact I|].
  unfold ensures. rewrite query_loop_step.
  destruct (api (tile_request coordinate) (world st)) as [[query_result|] w].
  - destruct (succeeded query_result).
    + eapply grows_trans_ensures.
      * apply grows_refl. reflexivity.
      * unfold resolve. apply ensures_bind; [|intros; now apply grows_refl].
        apply ensures_try_except with (E' := store_exn);
          [ apply ensures_dispatch; auto | auto | intros; apply ensures_pause ].
    + eapply grows_trans_ensures; [|apply IH]. now apply grows_refl.
  - eapply grows_trans_ensures; [|apply IH]. now apply grows_refl.
Qed.

Lemma ensures_for_coordinates (P : Q -> Prop) (self : subdivider) (d : Q)
    (shapefile : list Polygon) (fuel total : nat) (print_progress : bool) :
  P d ->
  (2.5 <= d / 2 ->
   forall coordinate s,
     ensures P store_exn
       (self (c2 coordinate) (c0 coordinate) (c3 coordinate) (c1 coordinate)
             (d / 2) shapefile false) s) ->
  forall coordinate_list i st,
    ensures P store_exn
      (for_coordinates self fuel total d shapefile print_progress i
                       coordinate_list) st.
Proof.
  intros Hd Hself. induction coordinate_list as [|c rest IH]; intros i st.
  - now apply grows_refl.
  - cbn [for_coordinates].
    apply ensures_bind; [destruct print_progress; now apply grows_refl|].
    intros _ s1. apply ensures_bind; [now apply grows_refl|].
    intros _ s2. apply ensures_bind; [apply ensures_query_loop; auto|].
    intros query_result s3. apply ensures_bind; [apply ensures_store|].
    intros _ s4. apply IH.
Qed.

Lemma half_le (d : Q) : 2.5 <= d / 2 -> d / 2 < d.
Proof. change (d / 2) with (d * (1 # 2)). lra. Qed.

(** A run from edge [d] records no edge above [d] and raises nothing but
    the exceptions of writing the features. *)
Lemma variable_bounding_box_records_at_most (d0 : Q) (fuel : nat) :
  forall max_lat min_lat max_lng min_lng d shapefile print_progress st,
    d <= d0 ->
    ensures (fun e => e <= d0) store_exn
      (variable_bounding_box fuel max_lat min_lat max_lng min_lng d shapefile
                             print_progress) st.
Proof.
  induction fuel as [|fuel IH]; intros; [exact I|].
  cbn [variable_bounding_box]. apply ensures_for_coordinates; [assumption|].
  intros Hhalf coordinate s. apply IH.
  apply half_le in Hhalf. apply Qlt_le_weak in Hhalf.
  eapply Qle_trans; eassumption.
Qed.

(** C9: on a reply that was accepted as successful the three branches of
    lines 167-173 cover every case: the edge is recorded (no results or
    fewer than 20), or the tile is subdivided at half the edge (20 or more
    and the half edge at least 2.5), or the edge is recorded (20 or more and
    the half edge below 2.5).  The [else] branch that raises [ValueError] is
    never taken, and no run of [variable_bounding_box] ends in that error. *)
Theorem dispatch_exhaustive (self : subdivider) (coordinate : Coordinate)
    (querybox_dim : Q) (shapefile : list Polygon) (query_result : Response) :
  (((status query_result = "ZERO_RESULTS"
     \/ (List.length (results query_result) < 20)%nat)
    /\ dispatch self coordinate querybox_dim shapefile query_result
       = record_dimension querybox_dim)
   \/ ((20 <= List.length (results query_result))%nat
       /\ 2.5 <= querybox_dim / 2
       /\ dispatch self coordinate querybox_dim shapefile query_result
          = self (c2 coordinate) (c0 coordinate) (c3 coordinate) (c1 coordinate)
                 (querybox_dim / 2) shapefile false)
   \/ ((20 <= List.length (results query_result))%nat
       /\ querybox_dim / 2 < 2.5
       /\ dispatch self coordinate querybox_dim shapefile query_result
          = record_dimension querybox_dim))
  /\ (forall fuel a b c e d sf print_progress st st' n status,
        variable_bounding_box fuel a b c e d sf print_progress st
        <> Exn (ValueError (unexpected_message n status)) st').
Proof.
  split; [apply dispatch_cases|].
  intros fuel a b c e d sf print_progress st st' n status Hrun.
  assert (Hsafe := @variable_bounding_box_records_at_most d fuel a b c e d sf
                     print_progress st (Qle_refl d)).
  unfold ensures in Hsafe. rewrite Hrun in Hsafe.
  destruct Hsafe as [[He|[[k He]|He]] _]; discriminate.
Qed.

(** C5: a tile whose query ends in a connection error is queried again, as
    often as the error comes back.  After [k] such failures in a row the
    loop is where it started, on the same tile with the same edge: it has
    neither returned nor raised (run with [k] iterations it is still
    running, and with [n] more it does what it does from the state
    reached), nothing was recorded or written, and each failed request was
    followed by one announcement and one sleep of [wait_time * 60]
    seconds, the same whatever the number of failures before.  The error is
    not passed on: no run of [variable_bounding_box] ends in it.  The tile
    is not given up: when the service then answers with a reply that is
    accepted, the loop goes on with that reply, and when the tile is final it
    returns it in a state whose trace holds the [k] failed requests, each
    with its pause, and then the request that was answered. *)
Theorem connection_error_retries_same_tile (self : subdivider) (k : nat)
    (coordinate : Coordinate) (querybox_dim : Q) (shapefile : list Polygon)
    (st st' : State) :
  connection_failures k (tile_request coordinate) st = Some st' ->
  (forall n,
      query_loop self (k + n) coordinate querybox_dim shapefile st
      = query_loop self n coordinate querybox_dim shapefile st')
  /\ query_loop self k coordinate querybox_dim shapefile st = OutOfFuel
  /\ num_queries st' = num_queries st
  /\ box_dimensions st' = box_dimensions st
  /\ output_file st' = output_file st
  /\ trace st'
     = (trace st
        ++ List.concat (repeat (retry_events (tile_request coordinate)
                                        (ConnectionPausing wait_time)) k))%list
  /\ (forall fuel a b c e d sf print_progress s s',
        variable_bounding_box fuel a b c e d sf print_progress s
        <> Exn ConnectionError s')
  /\ (forall n query_result w,
        api (tile_request coordinate) (world st') = (Answer query_result, w) ->
        succeeded query_result = true ->
        query_loop self (k + S n) coordinate querybox_dim shapefile st
        = resolve self coordinate querybox_dim shapefile query_result
            (after_sleep 1 (after_reply (tile_request coordinate) w st'))
        /\ (status query_result = "ZERO_RESULTS"
            \/ (List.length (results query_result) < 20)%nat
            \/ querybox_dim / 2 < 2.5 ->
            exists st2,
              query_loop self (k + S n) coordinate querybox_dim shapefile st
              = Val query_result st2
              /\ trace st2
                 = (trace st
                    ++ List.concat (repeat (retry_events (tile_request coordinate)
                                                    (ConnectionPausing wait_time)) k)
                    ++ [Get (tile_request coordinate); Sleep 1])%list
              /\ box_dimensions st2 = (box_dimensions st ++ [querybox_dim])%list
              /\ num_queries st2 = num_queries st
              /\ output_file st2 = output_file st)).
Proof.
  intros Hk.
  assert (Hloop : forall n,
             query_loop self (k + n) coordinate querybox_dim shapefile st
             = query_loop self n coordinate querybox_dim shapefile st').
  { revert st Hk. induction k as [|k IH]; intros st Hk n; cbn in Hk.
    - now injection Hk as <-.
    - cbn [Nat.add]. rewrite query_loop_step.
      destruct (api (tile_request coordinate) (world st)) as [[body|] w];
        [discriminate|]. now apply IH. }
  split; [assumption|]. split.
  { rewrite <- (Nat.add_0_r k) at 1. now rewrite Hloop. }
  apply connection_failures_frame in Hk.
  destruct Hk as (Hn & Hb & Ho & Ht). repeat (split; [assumption|]).
  split.
  { intros fuel a b c e d sf print_progress s s' Hrun.
    assert (Hsafe := @variable_bounding_box_records_at_most d fuel a b c e d sf
                       print_progress s (Qle_refl d)).
    unfold ensures in Hsafe. rewrite Hrun in Hsafe.
    destruct Hsafe as [[He|[[key He]|He]] _]; discriminate. }
  intros n query_result w Hreply Hok.
  assert (Hgo : query_loop self (k + S n) coordinate querybox_dim shapefile st
                = resolve self coordinate querybox_dim shapefile query_result
                    (after_sleep 1 (after_reply (tile_request coordinate) w st'))).
  { now rewrite Hloop, query_loop_step, Hreply, Hok. }
  split; [exact Hgo|].
  intros Hfinal. rewrite Hgo, resolve_records by assumption.
  eexists. split; [reflexivity|].
  cbn [trace box_dimensions num_queries output_file set_box_dimensions
       after_sleep after_reply log set_world].
  rewrite Ht, Hb, Hn, Ho. repeat split.
  now rewrite <- !app_assoc.
Qed.

Lemma ensures_grows_weaken (P P' : Q -> Prop) (E : exn -> Prop) {A} (m : M A)
    (st : State) :
  ensures P E m st -> (forall e, P e -> P' e) -> ensures P' E m st.
Proof.
  assert (Hg : forall s s', (forall e, P e -> P' e) -> grows P s s' -> grows P' s s').
  { intros s s' HP (new & Hr & Hf). exists new. split; [assumption|].
    eapply Forall_impl; eassumption. }
  unfold ensures. destruct (m st) as [a s|e s|]; auto.
  intros [He Hs] HP. split; [assumption | now apply Hg].
Qed.

Lemma try_except_transparent (P : Q -> Prop) {A} (m h : M A) (st : State) :
  ensures P store_exn m st -> try_except m h st = m st.
Proof.
  unfold ensures, try_except. destruct (m st) as [a s|e s|]; auto.
  intros [[He|[[k He]|He]] _]; now subst e.
Qed.

(** C1 (amended): a tile whose reply is truncated (20 results or more) and
    whose half edge is at least 2.5 is subdivided: the run goes on with
    [variable_bounding_box] on the box of the tile at half the edge.  The
    edge of the tile is not recorded: nothing is recorded before the
    recursive call, and the call records only edges below it.  The results
    of the truncated reply are not discarded, though: once the recursive
    call has returned they are written to the output by [store], like those
    of any other reply with results.  After the tile the output file holds
    what the recursive call left in it (nothing if there is no file yet)
    followed by the records of the truncated reply. *)
Theorem truncated_tile_subdivided_then_stored (n total i : nat)
    (coordinate : Coordinate) (rest : list Coordinate) (querybox_dim : Q)
    (shapefile : list Polygon) (print_progress : bool) (st : State)
    (query_result : Response) (w : W) :
  api (tile_request coordinate) (world (tile_started print_progress i total st))
  = (Answer query_result, w) ->
  status query_result = "OK" ->
  (20 <= List.length (results query_result))%nat ->
  2.5 <= querybox_dim / 2 ->
  for_coordinates (variable_bounding_box (S n)) (S n) total querybox_dim shapefile
                  print_progress i (coordinate :: rest) st
  = (variable_bounding_box (S n) (c2 coordinate) (c0 coordinate) (c3 coordinate)
                           (c1 coordinate) (querybox_dim / 2) shapefile false ;;
     store query_result ;;
     for_coordinates (variable_bounding_box (S n)) (S n) total querybox_dim
                     shapefile print_progress (S i) rest)
      (after_sleep 1 (after_reply (tile_request coordinate) w
                                  (tile_started print_progress i total st)))
  /\ box_dimensions
       (after_sleep 1 (after_reply (tile_request coordinate) w
                                   (tile_started print_progress i total st)))
     = box_dimensions st
  /\ ensures (fun e => e < querybox_dim) store_exn
       (variable_bounding_box (S n) (c2 coordinate) (c0 coordinate)
                              (c3 coordinate) (c1 coordinate)
                              (querybox_dim / 2) shapefile false)
       (after_sleep 1 (after_reply (tile_request coordinate) w
                                   (tile_started print_progress i total st)))
  /\ (forall st2 poi_data,
        variable_bounding_box (S n) (c2 coordinate) (c0 coordinate)
                              (c3 coordinate) (c1 coordinate)
                              (querybox_dim / 2) shapefile false
          (after_sleep 1 (after_reply (tile_request coordinate) w
                                      (tile_started print_progress i total st)))
        = Val tt st2 ->
        output_file st2 <> Truncated ->
        format_query_result (world st2) (results query_result) = Ok poi_data ->
        for_coordinates (variable_bounding_box (S n)) (S n) total querybox_dim
                        shapefile print_progress i (coordinate :: rest) st
        = for_coordinates (variable_bounding_box (S n)) (S n) total querybox_dim
                          shapefile print_progress (S i) rest
            (set_output_file
               (Collection (file_features (output_file st2) ++ poi_data)) st2)).
Proof.
  intros Hreply Hstatus Hlen Hhalf.
  assert (Hok : succeeded query_result = true).
  { unfold succeeded. now rewrite Hstatus. }
  destruct (dispatch_cases (variable_bounding_box (S n)) coordinate
              querybox_dim shapefile query_result)
    as [[[Hz|Hlt] _] | [(_ & _ & Hd) | (_ & Hlow & _)]];
    [ rewrite Hstatus in Hz; discriminate | lia |
    | now apply Qlt_not_le in Hlow ].
  assert (Hfirst :
            for_coordinates (variable_bounding_box (S n)) (S n) total querybox_dim
                            shapefile print_progress i (coordinate :: rest) st
            = (variable_bounding_box (S n) (c2 coordinate) (c0 coordinate)
                                     (c3 coordinate) (c1 coordinate)
                                     (querybox_dim / 2) shapefile false ;;
               store query_result ;;
               for_coordinates (variable_bounding_box (S n)) (S n) total
                               querybox_dim shapefile print_progress (S i) rest)
                (after_sleep 1 (after_reply (tile_request coordinate) w
                                  (tile_started print_progress i total st)))).
  { destruct (@tile_after_failed_attempts (variable_bounding_box (S n)) 0 n total i
                coordinate rest querybox_dim shapefile print_progress st
                (tile_started print_progress i total st) query_result w
                eq_refl Hreply Hok) as [Heq _].
    cbn [Nat.add] in Heq. rewrite Heq. unfold resolve, bind. rewrite Hd.
    rewrite try_except_transparent with (P := fun e => e <= querybox_dim / 2)
      by (apply variable_bounding_box_records_at_most; apply Qle_refl).
    unfold ret. now destruct (variable_bounding_box _ _ _ _ _ _ _ _ _). }
  split; [exact Hfirst|]. split; [|split].
  3: { intros st2 poi_data Hrun Hfile Hformat.
       rewrite Hfirst. unfold bind. rewrite Hrun.
       rewrite store_writes with (poi_data := poi_data);
         auto using results_nonempty. }
  - unfold tile_started. now destruct print_progress.
  - eapply ensures_grows_weaken;
      [ apply variable_bounding_box_records_at_most with (d0 := querybox_dim / 2);
        apply Qle_refl |].
    intros e He. cbn beta in *. apply half_le in Hhalf.
    eapply Qle_lt_trans; eassumption.
Qed.

Lemma variable_bounding_box_S (fuel : nat) (a b c e d : Q)
    (shapefile : list Polygon) (print_progress : bool) :
  variable_bounding_box (S fuel) a b c e d shapefile print_progress
  = for_coordinates (variable_bounding_box fuel) fuel
      (List.length (pixelise_region (divide_bounding_box a b c e d)
                                    shapefile_tampines))
      d shapefile print_progress 1
      (pixelise_region (divide_bounding_box a b c e d) shapefile_tampines).
Proof. reflexivity. Qed.

(** *** Fuel

    Fuel only bounds the unfolding of the loop and of the recursion: a run
    that ends with some fuel ends in the same way with any more. *)

Lemma dispatch_fuel (self1 self2 : subdivider) (coordinate : Coordinate)
    (d : Q) (shapefile : list Polygon) (query_result : Response) (st : State) :
  (forall a b c e x sf pp s,
      self1 a b c e x sf pp s <> OutOfFuel ->
      self2 a b c e x sf pp s = self1 a b c e x sf pp s) ->
  dispatch self1 coordinate d shapefile query_result st <> OutOfFuel ->
  dispatch self2 coordinate d shapefile query_result st
  = dispatch self1 coordinate d shapefile query_result st.
Proof.
  intros Hself. unfold dispatch.
  repeat match goal with
         | |- context [if ?b then _ else _] => destruct b
         end; auto.
Qed.

Lemma resolve_fuel (self1 self2 : subdivider) (coordinate : Coordinate)
    (d : Q) (shapefile : list Polygon) (query_result : Response) (st : State) :
  (forall a b c e x sf pp s,
      self1 a b c e x sf pp s <> OutOfFuel ->
      self2 a b c e x sf pp s = self1 a b c e x sf pp s) ->
  resolve self1 coordinate d shapefile query_result st <> OutOfFuel ->
  resolve self2 coordinate d shapefile query_result st
  = resolve self1 coordinate d shapefile query_result st.
Proof.
  intros Hself. unfold resolve, bind, try_except. intros Hend.
  rewrite dispatch_fuel with (self1 := self1); [reflexivity | assumption |].
  intros Hout. apply Hend. now rewrite Hout.
Qed.

Lemma query_loop_fuel (self1 self2 : subdivider) (coordinate : Coordinate)
    (d : Q) (shapefile : list Polygon) :
  (forall a b c e x sf pp s,
      self1 a b c e x sf pp s <> OutOfFuel ->
      self2 a b c e x sf pp s = self1 a b c e x sf pp s) ->
  forall n m st,
    (n <= m)%nat ->
    query_loop self1 n coordinate d shapefile st <> OutOfFuel ->
    query_loop self2 m coordinate d shapefile st
    = query_loop self1 n coordinate d shapefile st.
Proof.
  intros Hself. induction n as [|n IH]; intros m st Hle; [now cbn|].
  destruct m as [|m]; [lia|]. rewrite !query_loop_step.
  destruct (api (tile_request coordinate) (world st)) as [[query_result|] w].
  - destruct (succeeded query_result).
    + now apply resolve_fuel.
    + apply IH. lia.
  - apply IH. lia.
Qed.

Lemma for_coordinates_fuel (self1 self2 : subdivider) (d : Q)
    (shapefile : list Polygon) (total : nat) (print_progress : bool) (n m : nat) :
  (forall a b c e x sf pp s,
      self1 a b c e x sf pp s <> OutOfFuel ->
      self2 a b c e x sf pp s = self1 a b c e x sf pp s) ->
  (n <= m)%nat ->
  forall coordinate_list i st,
    for_coordinates self1 n total d shapefile print_progress i coordinate_list st
    <> OutOfFuel ->
    for_coordinates self2 m total d shapefile print_progress i coordinate_list st
    = for_coordinates self1 n total d shapefile print_progress i coordinate_list st.
Proof.
  intros Hself Hle. induction coordinate_list as [|c rest IH]; intros i st;
    [reflexivity|].
  cbn [for_coordinates]. unfold bind, increment_num_queries.
  destruct ((if print_progress then print (Processing i total) else ret tt) st)
    as [[] s1|e s1|]; try reflexivity.
  cbv beta iota. intros Hend.
  assert (Hloop : query_loop self1 n c d shapefile
                    (set_num_queries (S (num_queries s1)) s1) <> OutOfFuel).
  { intros Hout. apply Hend. now rewrite Hout. }
  rewrite query_loop_fuel with (self1 := self1) (n := n) by assumption.
  destruct (query_loop self1 n c d shapefile _) as [qr s2|e s2|];
    try reflexivity.
  destruct (store qr s2) as [[] s3|e s3|]; try reflexivity.
  now apply IH.
Qed.

Lemma variable_bounding_box_fuel (n : nat) :
  forall m a b c e d shapefile print_progress st,
    (n <= m)%nat ->
    variable_bounding_box n a b c e d shapefile print_progress st <> OutOfFuel ->
    variable_bounding_box m a b c e d shapefile print_progress st
    = variable_bounding_box n a b c e d shapefile print_progress st.
Proof.
  induction n as [|n IH]; intros m a b c e d shapefile print_progress st Hle;
    [now cbn|].
  destruct m as [|m]; [lia|]. rewrite !variable_bounding_box_S.
  apply for_coordinates_fuel; [|lia].
  intros. apply IH; [lia | assumption].
Qed.

(** *** The stub search of the specification *)

Lemma store_completes (P : Q -> Prop) (query_result : Response) (st : State) :
  storable (results query_result) -> output_file st <> Truncated ->
  completes P (store query_result) st.
Proof.
  intros Hs Hfile. unfold completes, store.
  destruct (String.eqb (status query_result) "ZERO_RESULTS").
  { exists st, []. unfold recorded. rewrite app_nil_r. now repeat split. }
  destruct (results query_result) as [|hit hits] eqn:Hr.
  { exists st, []. unfold recorded. rewrite app_nil_r. now repeat split. }
  destruct (Hs (world st)) as [fs Hfs]. rewrite Hfs.
  destruct (output_file st); [|contradiction|];
    eexists _, []; unfold recorded; rewrite app_nil_r;
    (split; [reflexivity|]); now repeat split.
Qed.

Lemma completes_bind (P : Q -> Prop) (m k : M unit) (st : State) :
  completes P m st ->
  (forall s, output_file s <> Truncated -> completes P k s) ->
  completes P (m ;; k) st.
Proof.
  intros (s1 & n1 & Hm & Hr1 & Hf1 & Ho1) Hk.
  destruct (Hk s1 Ho1) as (s2 & n2 & Hk2 & Hr2 & Hf2 & Ho2).
  exists s2, (n1 ++ n2)%list. unfold bind. rewrite Hm.
  repeat split; try assumption.
  - unfold recorded in *. now rewrite Hr2, Hr1, app_assoc.
  - apply Forall_app. now split.
Qed.

Lemma completes_frame (P : Q -> Prop) (m : M unit) (st st' : State) :
  m st = Val tt st' -> box_dimensions st' = box_dimensions st ->
  output_file st' = output_file st -> output_file st <> Truncated ->
  completes P m st.
Proof.
  intros Hm Hb Ho Hfile. exists st', []. unfold recorded.
  rewrite app_nil_r, Ho. now repeat split.
Qed.

Section Stub.
Variable P : Q -> Prop.
Variable self : subdivider.
Variable d : Q.
Variable shapefile : list Polygon.
Hypothesis stub : stub_truncates_from 10.
Hypothesis P_d : d < 10 -> P d.
Hypothesis self_completes :
  10 <= d ->
  forall coordinate s,
    output_file s <> Truncated ->
    completes P (self (c2 coordinate) (c0 coordinate) (c3 coordinate)
                      (c1 coordinate) (d / 2) shapefile false) s.

Lemma stub_tile (coordinate : Coordinate) (fuel : nat) (st : State)
    (max_lat min_lat max_lng min_lng : Q) :
  In coordinate (divide_bounding_box max_lat min_lat max_lng min_lng d) ->
  output_file st <> Truncated ->
  completes P (query_result <- query_loop self (S fuel) coordinate d shapefile ;;
               store query_result) st.
Proof.
  intros Hin Hfile.
  destruct (stub _ _ _ _ _ _ (world st) Hin) as (body & Hreply & Hstatus & Hlen & Hs).
  unfold completes, bind at 1. rewrite query_loop_step.
  destruct (api (tile_request coordinate) (world st)) as [reply w].
  cbn in Hreply. subst reply.
  assert (Hok : succeeded body = true) by (unfold succeeded; now rewrite Hstatus).
  rewrite Hok. unfold resolve, bind.
  set (st1 := after_sleep 1 (after_reply (tile_request coordinate) w st)).
  assert (Hfile1 : output_file st1 <> Truncated) by exact Hfile.
  assert (Hd : completes P (dispatch self coordinate d shapefile body) st1).
  { destruct (dispatch_cases self coordinate d shapefile body)
      as [[[Hz|Hlt] Heq] | [(Hge & _ & Heq) | (Hge & Hlow & _)]].
    - rewrite Hstatus in Hz. discriminate.
    - rewrite Heq. exists (set_box_dimensions (box_dimensions st1 ++ [d]) st1), [d].
      repeat split; [|assumption]. constructor; [|constructor].
      apply P_d. apply Qnot_le_lt. intros Hle. apply Hlen in Hle. lia.
    - rewrite Heq. apply self_completes; [now apply Hlen | assumption].
    - exfalso. apply Hlen in Hge. revert Hlow Hge.
      change (d / 2) with (d * (1 # 2)). lra. }
  destruct Hd as (s2 & new & Hrun & Hrec & Hall & Hfile2).
  unfold try_except. rewrite Hrun. unfold ret.
  destruct (@store_completes P body s2 Hs Hfile2)
    as (s3 & n3 & Hst & Hr3 & Hf3 & Ho3).
  exists s3, (new ++ n3)%list. repeat split; try assumption.
  - unfold recorded in *. now rewrite Hr3, Hrec, app_assoc.
  - apply Forall_app. now split.
Qed.

Lemma stub_for_coordinates (fuel total : nat) (print_progress : bool)
    (max_lat min_lat max_lng min_lng : Q) :
  forall coordinate_list i st,
    incl coordinate_list
         (divide_bounding_box max_lat min_lat max_lng min_lng d) ->
    output_file st <> Truncated ->
    completes P (for_coordinates self (S fuel) total d shapefile print_progress
                                 i coordinate_list) st.
Proof.
  induction coordinate_list as [|c rest IH]; intros i st Hincl Hfile.
  - exists st, []. unfold recorded. rewrite app_nil_r. now repeat split.
  - cbn [for_coordinates].
    apply completes_bind.
    { destruct print_progress; now eapply completes_frame. }
    intros s1 Hf1. apply completes_bind; [now eapply completes_frame|].
    intros s2 Hf2.
    assert (Htile := @stub_tile c fuel s2 max_lat min_lat max_lng min_lng
                       (Hincl c (or_introl eq_refl)) Hf2).
    destruct Htile as (s3 & n3 & Hrun & Hr3 & Hall3 & Hf3).
    assert (Hrest : completes P (for_coordinates self (S fuel) total d shapefile
                                   print_progress (S i) rest) s3).
    { apply IH; [|assumption]. intros x Hx. apply Hincl. now right. }
    destruct Hrest as (s4 & n4 & Hrun4 & Hr4 & Hall4 & Hf4).
    exists s4, (n3 ++ n4)%list. repeat split; try assumption.
    + unfold bind in *.
      destruct (query_loop self (S fuel) c d shapefile s2) as [qr s|e s|];
        try discriminate.
      destruct (store qr s) as [[] s'|e s'|]; try discriminate.
      injection Hrun as ->. exact Hrun4.
    + unfold recorded in *. now rewrite Hr4, Hr3, app_assoc.
    + apply Forall_app. now split.
Qed.

End Stub.

Lemma pixelise_region_incl (coordinates : list Coordinate)
    (region_shapefile : list Polygon) :
  incl (pixelise_region coordinates region_shapefile) coordinates.
Proof. unfold pixelise_region. apply incl_filter. Qed.

Lemma stub_run (k : nat) :
  stub_truncates_from 10 ->
  forall d, 2.5 <= d -> below_10_after k d ->
  forall fuel, (k + 2 <= fuel)%nat ->
  forall a b c e shapefile print_progress st,
    output_file st <> Truncated ->
    completes (fun x => x < 10 /\ 2.5 <= x)
      (variable_bounding_box fuel a b c e d shapefile print_progress) st.
Proof.
  intros Hstub. induction k as [|k IH]; intros d Hfloor Hbelow fuel Hfuel;
    (destruct fuel as [|[|fuel]]; [lia | lia |]);
    intros a b c e shapefile print_progress st Hfile;
    rewrite variable_bounding_box_S;
    apply stub_for_coordinates with a b c e;
    auto using pixelise_region_incl.
  - intros Hd. cbn in Hbelow. exfalso. revert Hd Hbelow. lra.
  - intros Hd coordinate s Hs. apply IH; [| exact Hbelow | lia | exact Hs].
    revert Hd. change (d / 2) with (d * (1 # 2)). lra.
Qed.

(** C4: with the stub search that reports a truncated result exactly when
    the edge of the tile is 10 or more, [variable_bounding_box] started at
    an edge of 40 returns (five levels of fuel are enough, and more change
    nothing), and every edge it has recorded is below 10 and at least
    2.5. *)
Theorem stub_subdivision_terminates (fuel : nat)
    (max_lat min_lat max_lng min_lng : Q) (shapefile : list Polygon)
    (print_progress : bool) (st : State) :
  stub_truncates_from 10 ->
  output_file st <> Truncated ->
  (5 <= fuel)%nat ->
  exists st' new,
    variable_bounding_box fuel max_lat min_lat max_lng min_lng 40 shapefile
                          print_progress st = Val tt st'
    /\ box_dimensions st' = (box_dimensions st ++ new)%list
    /\ Forall (fun e => e < 10 /\ 2.5 <= e) new.
Proof.
  intros Hstub Hfile Hfuel.
  destruct (@stub_run 3 Hstub 40) with (fuel := fuel) (st := st)
    (a := max_lat) (b := min_lat) (c := max_lng) (e := min_lng)
    (shapefile := shapefile) (print_progress := print_progress)
    as (st' & new & Hrun & Hrec & Hall & _);
    [ vm_compute; discriminate | reflexivity | lia | exact Hfile |].
  exists st', new. auto.
Qed.

End Runs.

(** * The scenarios *)

Section FarHit.
#[local] Existing Instance Scenario.planar.
#[local] Existing Instance Scenario.region.
#[local] Existing Instance Scenario.far.

(** C2 (counterexample): a batch of a well-formed hit inside the global
    box and a hit without location.  [format_query_result] raises the
    [KeyError] of the missing field; the record of the well-formed hit is
    not returned. *)
Lemma malformed_hit_fails_the_batch :
  well_formed (Scenario.hit "a" 1 1) = true
  /\ in_global_box (Scenario.hit "a" 1 1) = true
  /\ hit_location (Scenario.hit_without_location "b") = Err (KeyError "location")
  /\ format_query_result Scenario.idle_far [Scenario.hit "a" 1 1;
                             Scenario.hit_without_location "b"]
     = Err (KeyError "location").
Proof. repeat split; reflexivity. Qed.

(** The amended C2 on the same batch, and on a batch of well-formed hits. *)
Lemma format_query_result_all_or_nothing_witness :
  (exists e, format_query_result Scenario.idle_far [Scenario.hit "a" 1 1;
                                     Scenario.hit_without_location "b"]
             = Err e)
  /\ (exists fs, format_query_result Scenario.idle_far [Scenario.hit "a" 1 1;
                                         Scenario.hit "far" 200 200] = Ok fs
                 /\ Forall2 (fun hit f => format_hit Scenario.idle_far hit = Ok (Some f))
                            (filter in_global_box [Scenario.hit "a" 1 1;
                                                   Scenario.hit "far" 200 200])
                            fs).
Proof.
  split.
  - apply (proj1 (format_query_result_all_or_nothing Scenario.idle_far
                    [Scenario.hit "a" 1 1; Scenario.hit_without_location "b"]))
      with (Scenario.hit_without_location "b").
    + right. left. reflexivity.
    + left. exists (KeyError "location"). reflexivity.
  - apply (proj2 (format_query_result_all_or_nothing Scenario.idle_far
                    [Scenario.hit "a" 1 1; Scenario.hit "far" 200 200])).
    repeat constructor.
Defined.

(** C3 (counterexample): the tile queried is the square from (0, 0) to
    (40, 40) and the service returns a hit at (50, 50), outside the tile and
    inside the global box.  The hit is not discarded: its record is in the
    output file at the end of the run. *)
Lemma hit_outside_the_tile_is_kept :
  pixelise_region (divide_bounding_box 40 0 40 0 40) shapefile_tampines
  = [Scenario.tile40]
  /\ results (Scenario.far_hit (tile_request Scenario.tile40))
     = [Scenario.hit "far" 50 50]
  /\ in_tile (Scenario.hit "far" 50 50) Scenario.tile40 = false
  /\ exists st',
       variable_bounding_box 2 40 0 40 0 40 shapefile_tampines true
                             (Scenario.initial Scenario.idle_far) = Val tt st'
       /\ output_file st' = Collection [Scenario.feature "far" 50 50].
Proof.
  repeat split; try reflexivity.
  eexists. split; vm_compute; reflexivity.
Qed.

(** The amended C3 on a hit inside the global box and one outside. *)
Lemma format_query_result_keeps_global_box_witness :
  Forall2 (fun hit f => format_hit Scenario.idle_far hit = Ok (Some f)
                        /\ hit_location hit = Ok (location (geometry f)))
          (filter in_global_box [Scenario.hit "far" 50 50;
                                 Scenario.hit "away" 200 200])
          [Scenario.feature "far" 50 50].
Proof.
  apply (@format_query_result_keeps_global_box _ _ _ Scenario.idle_far
           [Scenario.hit "far" 50 50; Scenario.hit "away" 200 200]).
  reflexivity.
Defined.

End FarHit.

Section Crowded.
#[local] Existing Instance Scenario.planar.
#[local] Existing Instance Scenario.region.
#[local] Existing Instance Scenario.crowded.

(** C1 (counterexample): the box of 40 m is one tile at edge 40; its reply
    is truncated (20 results) and half its edge is above 2.5, so the tile is
    subdivided, into four tiles of edge 20 that have no results.  The 20
    records of the truncated reply are nevertheless in the output file at
    the end of the run. *)
Lemma truncated_results_reach_the_output :
  pixelise_region (divide_bounding_box 40 0 40 0 40) shapefile_tampines
  = [Scenario.tile40]
  /\ status (Scenario.crowded_at_40 (tile_request Scenario.tile40)) = "OK"
  /\ List.length (results (Scenario.crowded_at_40 (tile_request Scenario.tile40)))
     = 20%nat
  /\ 2.5 <= 40 / 2
  /\ exists st' fs,
       variable_bounding_box 3 40 0 40 0 40 shapefile_tampines true
                             (Scenario.initial Scenario.idle_crowded)
       = Val tt st'
       /\ box_dimensions st' = [40 / 2; 40 / 2; 40 / 2; 40 / 2]
       /\ format_query_result Scenario.idle_crowded
            (results (Scenario.crowded_at_40 (tile_request Scenario.tile40)))
          = Ok fs
       /\ List.length fs = 20%nat
       /\ output_file st' = Collection fs.
Proof.
  split; [reflexivity|]. split; [reflexivity|]. split; [reflexivity|].
  split; [vm_compute; discriminate|].
  eexists _, _. split; [vm_compute; reflexivity|].
  split; [vm_compute; reflexivity|]. split; [vm_compute; reflexivity|].
  split; vm_compute; reflexivity.
Qed.

(** The amended C1 on that tile: the four tiles of the subdivision have no
    results and no output file exists, so the file is created after the
    recursive call, with the twenty records of the truncated reply. *)
Lemma truncated_tile_subdivided_then_stored_witness :
  (for_coordinates (variable_bounding_box 2) 2 1 40 shapefile_tampines true 1
                   [Scenario.tile40] (Scenario.initial Scenario.idle_crowded)
   = (variable_bounding_box 2 (c2 Scenario.tile40) (c0 Scenario.tile40)
                            (c3 Scenario.tile40) (c1 Scenario.tile40) (40 / 2)
                            shapefile_tampines false ;;
      store (Scenario.crowded_at_40 (tile_request Scenario.tile40)) ;;
      for_coordinates (variable_bounding_box 2) 2 1 40 shapefile_tampines true
                      2 [])%monad
       (after_sleep 1
          (after_reply (tile_request Scenario.tile40) Scenario.idle_crowded
             (tile_started true 1 1 (Scenario.initial Scenario.idle_crowded))))
   /\ box_dimensions
        (after_sleep 1
           (after_reply (tile_request Scenario.tile40) Scenario.idle_crowded
              (tile_started true 1 1 (Scenario.initial Scenario.idle_crowded))))
      = box_dimensions (Scenario.initial Scenario.idle_crowded)
   /\ ensures (fun e => e < 40) store_exn
        (variable_bounding_box 2 (c2 Scenario.tile40) (c0 Scenario.tile40)
                               (c3 Scenario.tile40) (c1 Scenario.tile40) (40 / 2)
                               shapefile_tampines false)
        (after_sleep 1
           (after_reply (tile_request Scenario.tile40) Scenario.idle_crowded
              (tile_started true 1 1 (Scenario.initial Scenario.idle_crowded)))))
  /\ exists st3,
      for_coordinates (variable_bounding_box 2) 2 1 40 shapefile_tampines true 1
                      [Scenario.tile40] (Scenario.initial Scenario.idle_crowded)
      = Val tt st3
      /\ output_file st3
         = Collection (map (fun k => Scenario.feature ("T" ++ Scenario.digit k) 1 1)
                           (seq 0 20))
      /\ box_dimensions st3 = [40 / 2; 40 / 2; 40 / 2; 40 / 2].
Proof.
  destruct (@truncated_tile_subdivided_then_stored _ _ _ 1 1 1 Scenario.tile40 []
              40 shapefile_tampines true (Scenario.initial Scenario.idle_crowded)
              (Scenario.crowded_at_40 (tile_request Scenario.tile40))
              Scenario.idle_crowded)
    as (H1 & H2 & H3 & H4).
  - reflexivity.
  - reflexivity.
  - vm_compute. lia.
  - vm_compute. discriminate.
  - split; [exact (conj H1 (conj H2 H3))|].
    eassert (Hrun : variable_bounding_box 2 (c2 Scenario.tile40)
                      (c0 Scenario.tile40) (c3 Scenario.tile40)
                      (c1 Scenario.tile40) (40 / 2) shapefile_tampines false
                      (after_sleep 1
                         (after_reply (tile_request Scenario.tile40)
                            Scenario.idle_crowded
                            (tile_started true 1 1
                               (Scenario.initial Scenario.idle_crowded))))
                    = Val tt _) by (vm_compute; reflexivity).
    match type of Hrun with
    | _ = Val tt ?s2 =>
        eassert (Hformat :
                   format_query_result (world s2)
                     (results (Scenario.crowded_at_40
                                 (tile_request Scenario.tile40)))
                   = Ok _) by (vm_compute; reflexivity);
        rewrite (H4 s2 _ Hrun ltac:(vm_compute; discriminate) Hformat)
    end.
    eexists. split; [reflexivity|]. split; vm_compute; reflexivity.
Defined.

End Crowded.

Section Scripted.
#[local] Existing Instance Scenario.planar.
#[local] Existing Instance Scenario.region.
#[local] Existing Instance Scenario.scripted_service.

(** C5 on a tile whose first two queries end in a connection error and
    whose third is answered: with two iterations the loop is still running,
    with three it returns the answer after three requests for the same tile
    and the two pauses. *)
Lemma connection_error_retries_same_tile_witness :
  exists st' st2,
    connection_failures 2 (tile_request Scenario.tile40)
                        (Scenario.initial Scenario.two_errors_then_hits)
    = Some st'
    /\ query_loop (variable_bounding_box 1) 2 Scenario.tile40 40
                  shapefile_tampines
                  (Scenario.initial Scenario.two_errors_then_hits)
       = OutOfFuel
    /\ query_loop (variable_bounding_box 1) (2 + 1) Scenario.tile40 40
                  shapefile_tampines
                  (Scenario.initial Scenario.two_errors_then_hits)
       = Val Scenario.two_hits st2
    /\ trace st2
       = [Get (tile_request Scenario.tile40);
          Print (ConnectionPausing wait_time); Sleep (wait_time * 60);
          Get (tile_request Scenario.tile40);
          Print (ConnectionPausing wait_time); Sleep (wait_time * 60);
          Get (tile_request Scenario.tile40); Sleep 1]
    /\ box_dimensions st2 = [40]
    /\ output_file st2 = Absent.
Proof.
  pose (st' :=
          after_pause (ConnectionPausing wait_time)
            (after_reply (tile_request Scenario.tile40)
               [Answer Scenario.two_hits]
               (after_pause (ConnectionPausing wait_time)
                  (after_reply (tile_request Scenario.tile40)
                     [ConnectionFailure; Answer Scenario.two_hits]
                     (Scenario.initial Scenario.two_errors_then_hits))))).
  destruct (@connection_error_retries_same_tile _ _ _ (variable_bounding_box 1) 2
              Scenario.tile40 40 shapefile_tampines
              (Scenario.initial Scenario.two_errors_then_hits) st' eq_refl)
    as (_ & Hstill & _ & _ & _ & _ & _ & Hthen).
  destruct (Hthen 0%nat Scenario.two_hits [] eq_refl eq_refl)
    as [_ Hfinal].
  destruct Hfinal as (st2 & Hrun & Htrace & Hdims & _ & Hfile).
  { right. left. cbn. lia. }
  exists st', st2. split; [reflexivity|]. split; [exact Hstill|].
  split; [exact Hrun|]. split; [exact Htrace|]. split; [exact Hdims|].
  exact Hfile.
Defined.

(** C6 on a tile whose query is rate-limited, then fails, then succeeds,
    with no output file before: the file is created with the two records of
    the reply that succeeded, once. *)
Lemma retried_tile_stored_once_witness :
  exists st1 st',
    failed_attempts 2 (tile_request Scenario.tile40)
      (tile_started true 1 1 (Scenario.initial Scenario.limited_then_hits))
    = Some st1
    /\ api (tile_request Scenario.tile40) (world st1)
       = (Answer Scenario.two_hits, [])
    /\ succeeded Scenario.two_hits = true
    /\ output_file st1 = output_file (Scenario.initial Scenario.limited_then_hits)
    /\ for_coordinates (variable_bounding_box 1) (2 + 1) 1 40 shapefile_tampines
                       true 1 [Scenario.tile40]
                       (Scenario.initial Scenario.limited_then_hits)
       = Val tt st'
    /\ output_file st'
       = Collection [Scenario.feature "a" 1 1; Scenario.feature "b" 2 2]
    /\ box_dimensions st' = [40].
Proof.
  pose (st1 :=
          after_pause (ConnectionPausing wait_time)
            (after_reply (tile_request Scenario.tile40)
               [Answer Scenario.two_hits]
               (after_pause (Pausing wait_time)
                  (after_reply (tile_request Scenario.tile40)
                     [ConnectionFailure; Answer Scenario.two_hits]
                     (tile_started true 1 1
                        (Scenario.initial Scenario.limited_then_hits)))))).
  destruct (@retried_tile_stored_once _ _ _ (variable_bounding_box 1) 2 0 1 1
              Scenario.tile40 [] 40 shapefile_tampines true
              (Scenario.initial Scenario.limited_then_hits) st1
              Scenario.two_hits [] eq_refl eq_refl eq_refl)
    as ((_ & Ho & _ & _) & Hfinal & _ & _).
  exists st1. eexists.
  split; [reflexivity|]. split; [reflexivity|]. split; [reflexivity|].
  split; [exact Ho|]. split.
  - rewrite (Hfinal [Scenario.feature "a" 1 1; Scenario.feature "b" 2 2]).
    + reflexivity.
    + reflexivity.
    + discriminate.
    + left. cbn. lia.
    + discriminate.
    + reflexivity.
  - split; reflexivity.
Defined.

(** The whole tile of that scenario: the two records are in the output
    once, after three requests, and the edge is recorded once. *)
Example retried_tile_output :
  exists st',
    for_coordinates (variable_bounding_box 1) 3 1 40 shapefile_tampines true 1
                    [Scenario.tile40]
                    (Scenario.initial Scenario.limited_then_hits)
    = Val tt st'
    /\ output_file st'
       = Collection [Scenario.feature "a" 1 1; Scenario.feature "b" 2 2]
    /\ box_dimensions st' = [40]
    /\ num_queries st' = 1%nat
    /\ List.length (filter (fun ev => match ev with Get _ => true | _ => false end)
                           (trace st')) = 3%nat.
Proof.
  eexists. split; [vm_compute; reflexivity|].
  split; [vm_compute; reflexivity|]. split; [vm_compute; reflexivity|].
  split; vm_compute; reflexivity.
Qed.

End Scripted.

Section PlanarStub.
#[local] Existing Instance Scenario.planar.
#[local] Existing Instance Scenario.region.
#[local] Existing Instance Scenario.stub.

Lemma planar_grid_tile (a b c e edge : Q) (tile : Coordinate) :
  In tile (Scenario.planar_grid a b c e edge) ->
  c2 tile = c0 tile + edge /\ c3 tile = c1 tile + edge.
Proof.
  unfold Scenario.planar_grid. rewrite in_flat_map.
  intros (i & _ & Hin). apply in_map_iff in Hin.
  destruct Hin as (j & <- & _). now split.
Qed.

Lemma planar_radius (tile : Coordinate) (edge : Q) :
  c2 tile = c0 tile + edge -> c3 tile = c1 tile + edge ->
  radius (tile_request tile) == edge.
Proof.
  intros H2 H3. unfold tile_request. cbn. rewrite H2, H3. field.
Qed.

Lemma planar_stub : stub_truncates_from 10.
Proof.
  intros a b c e edge tile w Hin.
  apply planar_grid_tile in Hin. destruct Hin as [H2 H3].
  assert (Hr := planar_radius tile H2 H3).
  exists (Scenario.truncated_from_10 (tile_request tile)).
  split; [reflexivity|]. unfold Scenario.truncated_from_10.
  destruct (Qge_bool (radius (tile_request tile)) 10) eqn:Hge.
  - apply Qge_bool_iff in Hge. rewrite Hr in Hge.
    split; [reflexivity|]. split.
    + split; [now intros _ | intros _; vm_compute; lia].
    + intros []. vm_compute. eexists. reflexivity.
  - assert (Hlt : ~ 10 <= edge).
    { intros Hle. rewrite <- Hr in Hle. apply Qge_bool_iff in Hle. congruence. }
    split; [reflexivity|]. split.
    + split; [vm_compute; lia | contradiction].
    + intros []. vm_compute. eexists. reflexivity.
Qed.

(** C4 on the planar stub: a box of 40 m queried from an edge of 40 m. *)
Lemma stub_subdivision_terminates_witness :
  exists st' new,
    variable_bounding_box 5 40 0 40 0 40 shapefile_tampines true
                          (Scenario.initial Scenario.idle_stub) = Val tt st'
    /\ box_dimensions st'
       = (box_dimensions (Scenario.initial Scenario.idle_stub) ++ new)%list
    /\ Forall (fun e => e < 10 /\ 2.5 <= e) new.
Proof.
  apply (@stub_subdivision_terminates _ _ _ 5 40 0 40 0 shapefile_tampines true
           (Scenario.initial Scenario.idle_stub) planar_stub).
  - discriminate.
  - lia.
Defined.

(** The run of that scenario: 1 + 4 + 16 + 64 queries, and the edge of
    each of the 64 tiles of 5 m is recorded. *)
Example stub_records_edges_of_5 :
  exists st',
    variable_bounding_box 5 40 0 40 0 40 shapefile_tampines true
                          (Scenario.initial Scenario.idle_stub) = Val tt st'
    /\ box_dimensions st' = repeat (40 / 2 / 2 / 2) 64
    /\ num_queries st' = 85%nat.
Proof.
  eexists. split; [vm_compute; reflexivity|].
  split; vm_compute; reflexivity.
Qed.

End PlanarStub.


(** * Further properties *)

(** ** The arguments of [extract_poi] *)

Section Precedence.
Context `{G : Globals} `{Wd : World}.

(** X1: a complete centre takes precedence over the box: whatever is passed
    for the four edges, the request is centred on the given point and its
    radius is computed from the box that [translate_coordinate] derives from
    the point and the extents [l], [h].  Without a complete centre a complete
    box decides alone: the request is centred on its centroid, and a lone
    latitude or longitude, and the extents, are ignored. *)
Theorem extract_poi_centre_takes_precedence
    (a b c d lat lng : option Q) (x y l h : Q) (k : option string) :
  extract_poi_params a b c d (Some x) (Some y) l h k
  = Ok {| key := k; centre := (x, y);
          radius := calculate_circle_radius
                      (fst (fst (fst (translate_coordinate x y l h))))
                      (snd (fst (fst (translate_coordinate x y l h)))) x y |}
  /\ (forall n e s w,
        lat = None \/ lng = None ->
        extract_poi_params (Some n) (Some e) (Some s) (Some w) lat lng l h k
        = Ok {| key := k; centre := identify_centroid n e s w;
                radius := calculate_circle_radius n e
                            (fst (identify_centroid n e s w))
                            (snd (identify_centroid n e s w)) |}).
Proof.
  split.
  - unfold extract_poi_params.
    replace (is_None a && is_None b && is_None c && is_None d
             && is_None (Some x) && is_None (Some y)) with false
      by (cbn; now rewrite !andb_false_r).
    cbn. now destruct (translate_coordinate x y l h) as [[[p q] r] t].
  - intros n e s w Hnone. unfold extract_poi_params.
    destruct lat, lng; cbn; try (destruct Hnone; discriminate);
      now destruct (identify_centroid n e s w).
Qed.

End Precedence.

(** ** The tiles that are queried *)

Section Tiles.
Context `{G : Globals} `{Wd : World}.

Lemma count_within_positive (p : Q * Q) (shapefile : list Polygon) :
  negb (count_within p shapefile =? 0)%nat = true
  <-> exists polygon, In polygon shapefile /\ point_within p polygon = true.
Proof.
  unfold count_within. induction shapefile as [|q rest IH]; cbn.
  - split; [discriminate | intros (x & [] & _)].
  - destruct (point_within p q) eqn:Hq; cbn.
    + split; [|reflexivity]. intros _. exists q. auto.
    + rewrite IH. split.
      * intros (x & Hin & Hx). exists x. auto.
      * intros (x & [->|Hin] & Hx); [congruence|]. exists x. auto.
Qed.

(** X2: [pixelise_region] keeps a tile exactly when one of its four corners
    lies within a polygon of the shapefile; the tiles it keeps are in the
    order of the list it was given. *)
Theorem pixelise_region_corner_test (coordinates : list Coordinate)
    (shapefile : list Polygon) :
  (forall coordinate,
      In coordinate (pixelise_region coordinates shapefile)
      <-> In coordinate coordinates
          /\ exists polygon, In polygon shapefile
                             /\ corner_within coordinate polygon = true)
  /\ pixelise_region coordinates shapefile
     = filter (fun coordinate => existsb (corner_within coordinate) shapefile)
              coordinates.
Proof.
  assert (Htest : forall coordinate,
             negb (count_within (c1 coordinate, c0 coordinate) shapefile =? 0)%nat
             || negb (count_within (c3 coordinate, c0 coordinate) shapefile =? 0)%nat
             || negb (count_within (c1 coordinate, c2 coordinate) shapefile =? 0)%nat
             || negb (count_within (c3 coordinate, c2 coordinate) shapefile =? 0)%nat
             = existsb (corner_within coordinate) shapefile).
  { intros coordinate. apply eq_true_iff_eq.
    rewrite !orb_true_iff, !count_within_positive, existsb_exists.
    unfold corner_within. split.
    - intros [[[(q & Hin & Hq)|(q & Hin & Hq)]|(q & Hin & Hq)]|(q & Hin & Hq)];
        exists q; rewrite Hq, ?orb_true_r; auto.
    - intros (q & Hin & Hq). rewrite !orb_true_iff in Hq.
      destruct Hq as [[[Hq|Hq]|Hq]|Hq]; eauto 6. }
  split.
  - intros coordinate. unfold pixelise_region. rewrite filter_In, Htest.
    now rewrite existsb_exists.
  - unfold pixelise_region. apply filter_ext. exact Htest.
Qed.

(** When no tile of the division has a corner in the study area,
    [variable_bounding_box] sends no request: it returns in the state it was
    called in. *)
Lemma no_tile_no_query (fuel : nat) (a b c e d : Q) (shapefile : list Polygon)
    (print_progress : bool) (st : State) :
  pixelise_region (divide_bounding_box a b c e d) shapefile_tampines = [] ->
  variable_bounding_box (S fuel) a b c e d shapefile print_progress st = Val tt st.
Proof.
  intros Hnone. rewrite variable_bounding_box_S, Hnone. reflexivity.
Qed.

End Tiles.

(** ** The features of a batch *)

Section Batches.
Context `{G : Globals} `{Wd : World}.

(** X4: batches compose.  Formatting two batches one after the other gives
    the records of the first followed by those of the second, and fails as
    soon as one of them does, the first one first. *)
Theorem format_query_result_app (w : W) (batch1 batch2 : list json) :
  format_query_result w (batch1 ++ batch2)
  = (poi_data1 <~ format_query_result w batch1 ;;
     poi_data2 <~ format_query_result w batch2 ;;
     Ok (poi_data1 ++ poi_data2)%list)%result.
Proof.
  induction batch1 as [|hit rest IH]; cbn.
  - now destruct (format_query_result w batch2).
  - destruct (format_hit w hit) as [r|e]; cbn; [|reflexivity].
    rewrite IH. destruct (format_query_result w rest) as [fs1|e]; cbn;
      [|reflexivity].
    destruct (format_query_result w batch2) as [fs2|e]; cbn; [|reflexivity].
    now destruct r.
Qed.

Lemma format_hit_fields (w : W) (hit : json) (f : Feature) :
  format_hit w hit = Ok (Some f) ->
  source (properties f) = "GoogleMap"
  /\ requires_verification (properties f) = "No"
  /\ extraction_date f = extract_date w
  /\ name (properties f) = extract_placename hit
  /\ (exists place_id, getitem hit "place_id" = Ok place_id
                       /\ id f = py_str place_id)
  /\ (exists types, getitem hit "types" = Ok types
                    /\ place_type (properties f) = types).
Proof.
  unfold format_hit.
  destruct (getitem hit "geometry") as [geom|]; cbn; [|discriminate].
  destruct (getitem geom "location") as [loc|]; cbn; [|discriminate].
  destruct (getitem loc "lat") as [lat|]; cbn; [|discriminate].
  destruct (getitem loc "lng") as [lng|]; cbn; [|discriminate].
  destruct (within_boundary_area lat lng min_lat max_lat min_lng max_lng)
    as [[|]|]; cbn; try discriminate.
  destruct (hit_geometry geom lat lng) as [g|]; cbn; [|discriminate].
  destruct (hit_address hit) as [addr|]; cbn; [|discriminate].
  destruct (getitem hit "types") as [types|]; cbn; [|discriminate].
  destruct (getitem hit "place_id") as [place_id|]; cbn; [|discriminate].
  intros [= <-]. cbn. repeat split; eauto.
Qed.

(** X5: every record of a batch is the record of one of its hits: its id is
    the string of the hit's 'place_id', its place type the hit's 'types', its
    name the hit's 'name' or NaN when the hit has none; it is tagged with the
    source 'GoogleMap', verification 'No' and the date of the day. *)
Theorem format_query_result_fields (w : W) (hits : list json) (fs : list Feature) :
  format_query_result w hits = Ok fs ->
  Forall (fun f =>
            source (properties f) = "GoogleMap"
            /\ requires_verification (properties f) = "No"
            /\ extraction_date f = extract_date w
            /\ exists hit place_id types,
                 In hit hits
                 /\ getitem hit "place_id" = Ok place_id
                 /\ id f = py_str place_id
                 /\ getitem hit "types" = Ok types
                 /\ place_type (properties f) = types
                 /\ name (properties f) = extract_placename hit) fs.
Proof.
  intros Hfs. apply format_query_result_kept in Hfs.
  assert (Hin : forall hit, In hit (filter in_global_box hits) -> In hit hits).
  { intros hit Hhit. now apply filter_In in Hhit. }
  induction Hfs as [|hit f hs fs' Hhit _ IH]; constructor.
  - apply format_hit_fields in Hhit.
    destruct Hhit as (Hs & Hv & Hd & Hn & (pid & Hp & Hid) & (tys & Ht & Hty)).
    repeat (split; [assumption|]). exists hit, pid, tys.
    repeat split; auto. apply Hin. now left.
  - apply IH. intros x Hx. apply Hin. now right.
Qed.

End Batches.

(** ** What every run keeps *)

Section Invariants.
Context `{G : Globals} `{Wd : World}.

Lemma variable_bounding_box_no_connection_error (fuel : nat) (a b c e d : Q)
    (shapefile : list Polygon) (print_progress : bool) (st st' : State) :
  variable_bounding_box fuel a b c e d shapefile print_progress st
  <> Exn ConnectionError st'.
Proof.
  intros Hrun.
  assert (Hsafe := @variable_bounding_box_records_at_most _ _ _ d fuel a b c e d
                     shapefile print_progress st (Qle_refl d)).
  unfold ensures in Hsafe. rewrite Hrun in Hsafe.
  destruct Hsafe as [[He|[[k He]|He]] _]; discriminate.
Qed.

Section Relation.
Variable R : State -> State -> Prop.
Hypothesis R_refl : forall st, R st st.
Hypothesis R_trans : forall st1 st2 st3, R st1 st2 -> R st2 st3 -> R st1 st3.
Hypothesis R_progress : forall st i n, R st (log (Print (Processing i n)) st).
Hypothesis R_count : forall st, R st (set_num_queries (S (num_queries st)) st).
Hypothesis R_answer : forall st r w, R st (after_sleep 1 (after_reply r w st)).
Hypothesis R_retry : forall st r w m, R st (after_pause m (after_reply r w st)).
Hypothesis R_record :
  forall st d, R st (set_box_dimensions (box_dimensions st ++ [d]) st).
Hypothesis R_write :
  forall st features new,
    output_file st = Collection features ->
    R st (set_output_file (Collection (features ++ new)) st).
Hypothesis R_create :
  forall st f, output_file st = Absent -> R st (set_output_file f st).

Lemma keeps_trans {A} (m : M A) (st st' : State) :
  R st st' -> keeps R m st' ->
  match m st' with
  | Val _ s => R st s
  | Exn _ s => R st s
  | OutOfFuel => True
  end.
Proof. unfold keeps. destruct (m st'); eauto. Qed.

Lemma keeps_bind {A B} (m : M A) (k : A -> M B) (st : State) :
  keeps R m st -> (forall a s, keeps R (k a) s) -> keeps R (bind m k) st.
Proof.
  unfold keeps, bind. intros Hm Hk. destruct (m st) as [a s|e s|]; auto.
  specialize (Hk a s). destruct (k a s); eauto.
Qed.

Lemma keeps_store (query_result : Response) (st : State) :
  keeps R (store query_result) st.
Proof.
  unfold keeps, store.
  destruct (String.eqb (status query_result) "ZERO_RESULTS"); [apply R_refl|].
  destruct (results query_result) as [|hit hits]; [apply R_refl|].
  destruct (output_file st) eqn:Hfile.
  - destruct (format_query_result (world st) (hit :: hits)); auto.
  - apply R_refl.
  - destruct (format_query_result (world st) (hit :: hits)); auto.
Qed.

Section Loop.
Variable self : subdivider.
Hypothesis self_keeps : forall a b c e d sf pp s, keeps R (self a b c e d sf pp) s.
Hypothesis self_catches :
  forall a b c e d sf pp s s', self a b c e d sf pp s <> Exn ConnectionError s'.

Lemma keeps_resolve (coordinate : Coordinate) (d : Q) (shapefile : list Polygon)
    (query_result : Response) (st : State) :
  keeps R (resolve self coordinate d shapefile query_result) st.
Proof.
  unfold keeps, resolve, bind, try_except, ret.
  destruct (dispatch_cases self coordinate d shapefile query_result)
    as [[_ Heq] | [(_ & _ & Heq) | (_ & _ & Heq)]]; rewrite Heq.
  - apply R_record.
  - specialize (self_keeps (c2 coordinate) (c0 coordinate) (c3 coordinate)
                           (c1 coordinate) (d / 2) shapefile false st).
    unfold keeps in self_keeps.
    destruct (self (c2 coordinate) (c0 coordinate) (c3 coordinate)
                   (c1 coordinate) (d / 2) shapefile false st)
      as [[] s|e s|] eqn:Hrun; auto.
    destruct e; auto. now apply self_catches in Hrun.
  - apply R_record.
Qed.

Lemma keeps_query_loop (coordinate : Coordinate) (d : Q)
    (shapefile : list Polygon) :
  forall fuel st, keeps R (query_loop self fuel coordinate d shapefile) st.
Proof.
  induction fuel as [|fuel IH]; intros st; [exact I|].
  unfold keeps. rewrite query_loop_step.
  destruct (api (tile_request coordinate) (world st)) as [[query_result|] w].
  - destruct (succeeded query_result).
    + apply keeps_trans; [apply R_answer | apply keeps_resolve].
    + apply keeps_trans; [apply R_retry | apply IH].
  - apply keeps_trans; [apply R_retry | apply IH].
Qed.

Lemma keeps_for_coordinates (fuel total : nat) (d : Q) (shapefile : list Polygon)
    (print_progress : bool) :
  forall coordinate_list i st,
    keeps R (for_coordinates self fuel total d shapefile print_progress i
                             coordinate_list) st.
Proof.
  induction coordinate_list as [|c rest IH]; intros i st; [apply R_refl|].
  cbn [for_coordinates]. apply keeps_bind.
  { destruct print_progress; [apply R_progress | apply R_refl]. }
  intros _ s1. apply keeps_bind; [apply R_count|].
  intros _ s2. apply keeps_bind; [apply keeps_query_loop|].
  intros query_result s3. apply keeps_bind; [apply keeps_store|].
  intros _ s4. apply IH.
Qed.

End Loop.

Lemma keeps_variable_bounding_box (fuel : nat) :
  forall a b c e d shapefile print_progress st,
    keeps R (variable_bounding_box fuel a b c e d shapefile print_progress) st.
Proof.
  induction fuel as [|fuel IH]; intros; [exact I|].
  rewrite variable_bounding_box_S. apply keeps_for_coordinates.
  - intros. apply IH.
  - intros. apply variable_bounding_box_no_connection_error.
Qed.

End Relation.

Lemma paced_app (t1 t2 : list Event) : paced t1 -> paced t2 -> paced (t1 ++ t2).
Proof. induction 1; cbn; auto using paced. Qed.

Lemma trace_paced_same (st st' : State) :
  trace st' = trace st -> trace_paced st st'.
Proof. intros Ht. exists []. rewrite app_nil_r. split; [assumption | constructor]. Qed.

(** X6: the requests of a run are paced.  Whenever a run of
    [variable_bounding_box] ends, by returning or by raising, the events it
    added to the trace are progress lines and requests each followed at once
    by a sleep: the pacing second after a reply that is accepted, the
    announced pause of [wait_time * 60] seconds after a reply that is not, or
    after a connection error.  No request follows another without a sleep. *)
Theorem requests_are_paced (fuel : nat) (a b c e d : Q)
    (shapefile : list Polygon) (print_progress : bool) (st : State) :
  keeps trace_paced
        (variable_bounding_box fuel a b c e d shapefile print_progress) st.
Proof.
  apply keeps_variable_bounding_box.
  - intros s. now apply trace_paced_same.
  - intros s1 s2 s3 (t1 & H1 & P1) (t2 & H2 & P2). exists (t1 ++ t2)%list.
    rewrite H2, H1, app_assoc. split; [reflexivity | now apply paced_app].
  - intros s i n. exists [Print (Processing i n)].
    split; [reflexivity | repeat constructor].
  - intros s. now apply trace_paced_same.
  - intros s r w. exists [Get r; Sleep 1]. split; [|repeat constructor].
    cbn. now rewrite <- app_assoc.
  - intros s r w m. exists [Get r; Print m; Sleep (wait_time * 60)].
    split; [|repeat constructor]. cbn. now rewrite <- !app_assoc.
  - intros s x. now apply trace_paced_same.
  - intros s features new _. now apply trace_paced_same.
  - intros s f _. now apply trace_paced_same.
Qed.

(** X7: the output file is only appended to.  Whenever a run of
    [variable_bounding_box] that started with a feature collection in the
    output file ends, by returning or by raising, the file holds the same
    features, in the same order, followed by the new ones. *)
Theorem output_is_append_only (fuel : nat) (a b c e d : Q)
    (shapefile : list Polygon) (print_progress : bool) (st : State) :
  keeps output_appended
        (variable_bounding_box fuel a b c e d shapefile print_progress) st.
Proof.
  assert (Hsame : forall s s', output_file s' = output_file s ->
                               output_appended s s').
  { intros s s' Heq features Hf. exists []. now rewrite app_nil_r, Heq. }
  apply keeps_variable_bounding_box; try (intros; now apply Hsame).
  - intros s1 s2 s3 H12 H23 features Hf.
    destruct (H12 _ Hf) as [n1 H2]. destruct (H23 _ H2) as [n2 H3].
    exists (n1 ++ n2)%list. now rewrite app_assoc.
  - intros s features new Hf features' Hf'. rewrite Hf in Hf'.
    injection Hf' as <-. now exists new.
  - intros s f Hf features Hf'. congruence.
Qed.

(** X8: the edges a run records.  Whenever a run started at edge [d] ends,
    every edge it has recorded is [d] itself or an edge obtained by halving
    that is at least 2.5 (and at most [d / 2]): no tile is queried below the
    floor unless the run was started there.  The only exceptions a run raises
    are those of writing the features ([KeyError] or [TypeError] from a raw
    hit, or an output file that cannot be read back). *)
Theorem recorded_edges_respect_floor (fuel : nat) :
  forall a b c e d shapefile print_progress st,
    ensures (fun x => x = d \/ (2.5 <= x /\ x <= d / 2)) store_exn
            (variable_bounding_box fuel a b c e d shapefile print_progress) st.
Proof.
  induction fuel as [|fuel IH]; intros; [exact I|].
  rewrite variable_bounding_box_S. apply ensures_for_coordinates; [now left|].
  intros Hhalf coordinate s.
  eapply ensures_grows_weaken; [apply IH|]. cbn beta.
  intros x [->|[Hlow Hhigh]]; right.
  - split; [assumption | apply Qle_refl].
  - split; [assumption|]. revert Hhalf Hhigh.
    change (d / 2 / 2) with (d * (1 # 2) * (1 # 2)).
    change (d / 2) with (d * (1 # 2)). lra.
Qed.

End Invariants.

(** ** Single tiles *)

Section SingleTiles.
Context `{G : Globals} `{Wd : World}.
Local Open Scope monad_scope.

(** X9: the retry loop returns only a reply that was accepted: when it
    returns, the status of the reply it returns is 'OK' or 'ZERO_RESULTS',
    and the reply is one the service gave to the request of the tile.  A
    rate-limited or refused reply never reaches the code that records the
    edge and writes the features. *)
Theorem query_loop_returns_accepted_reply (self : subdivider) (fuel : nat)
    (coordinate : Coordinate) (d : Q) (shapefile : list Polygon)
    (st st' : State) (query_result : Response) :
  query_loop self fuel coordinate d shapefile st = Val query_result st' ->
  succeeded query_result = true
  /\ exists s w, api (tile_request coordinate) (world s) = (Answer query_result, w).
Proof.
  revert st. induction fuel as [|fuel IH]; intros st; [discriminate|].
  rewrite query_loop_step.
  destruct (api (tile_request coordinate) (world st)) as [[body|] w] eqn:Hapi;
    [|apply IH].
  destruct (succeeded body) eqn:Hok; [|apply IH].
  unfold resolve, bind, ret.
  destruct (try_except _ _ _); try discriminate.
  intros [= <- <-]. split; [assumption|]. now exists st, w.
Qed.

(** X10: at the floor a truncated tile is final.  When the reply has 20
    results or more and half the edge is below 2.5, the tile is not
    subdivided: its edge is recorded, its results are written, and the loop
    goes on with the next tile; the recursive call is not made.  After the
    tile the output file holds the features it held before (none if there
    was no file) followed by the records of the reply. *)
Theorem truncated_tile_at_floor (self : subdivider) (n total i : nat)
    (coordinate : Coordinate) (rest : list Coordinate) (d : Q)
    (shapefile : list Polygon) (print_progress : bool) (st : State)
    (query_result : Response) (w : W) :
  api (tile_request coordinate) (world (tile_started print_progress i total st))
  = (Answer query_result, w) ->
  status query_result = "OK" ->
  (20 <= List.length (results query_result))%nat ->
  d / 2 < 2.5 ->
  for_coordinates self (S n) total d shapefile print_progress i
                  (coordinate :: rest) st
  = (store query_result ;;
     for_coordinates self (S n) total d shapefile print_progress (S i) rest)
      (set_box_dimensions
         (box_dimensions st ++ [d])
         (after_sleep 1 (after_reply (tile_request coordinate) w
                                     (tile_started print_progress i total st))))
  /\ (forall poi_data,
        output_file st <> Truncated ->
        format_query_result (elapse 1 w) (results query_result) = Ok poi_data ->
        for_coordinates self (S n) total d shapefile print_progress i
                        (coordinate :: rest) st
        = for_coordinates self (S n) total d shapefile print_progress (S i) rest
            (set_output_file
               (Collection (file_features (output_file st) ++ poi_data))
               (set_box_dimensions
                  (box_dimensions st ++ [d])
                  (after_sleep 1
                     (after_reply (tile_request coordinate) w
                        (tile_started print_progress i total st)))))).
Proof.
  intros Hreply Hstatus Hlen Hlow.
  assert (Hok : succeeded query_result = true).
  { unfold succeeded. now rewrite Hstatus. }
  destruct (@tile_after_failed_attempts _ _ _ self 0 n total i coordinate rest d
              shapefile print_progress st
              (tile_started print_progress i total st) query_result w
              eq_refl Hreply Hok) as (Heq & Ho & Hb & _).
  cbn [Nat.add] in Heq.
  set (st1 := after_sleep 1 (after_reply (tile_request coordinate) w
                               (tile_started print_progress i total st))) in *.
  assert (Hb' : box_dimensions st1 = box_dimensions st) by exact Hb.
  assert (Ho' : output_file st1 = output_file st) by exact Ho.
  assert (Hw' : world st1 = elapse 1 w) by reflexivity.
  clearbody st1.
  assert (Hfirst :
            for_coordinates self (S n) total d shapefile print_progress i
                            (coordinate :: rest) st
            = (store query_result ;;
               for_coordinates self (S n) total d shapefile print_progress
                               (S i) rest)
                (set_box_dimensions (box_dimensions st ++ [d]) st1)).
  { rewrite Heq. unfold bind. rewrite resolve_records by tauto.
    now rewrite Hb'. }
  split; [exact Hfirst|].
  intros poi_data Hfile Hformat. rewrite Hfirst. unfold bind.
  rewrite store_writes with (poi_data := poi_data);
    auto using results_nonempty.
  - cbn [output_file set_box_dimensions]. now rewrite Ho'.
  - cbn [output_file set_box_dimensions]. now rewrite Ho'.
  - cbn [world set_box_dimensions]. now rewrite Hw'.
Qed.

End SingleTiles.

(** ** A region without results *)

Section NothingFound.
Context `{G : Globals} `{Wd : World}.

Lemma requests_of_app (t1 t2 : list Event) :
  requests_of (t1 ++ t2) = (requests_of t1 ++ requests_of t2)%list.
Proof.
  induction t1 as [|[m|x|r] t1 IH]; cbn; auto. now rewrite IH.
Qed.

Lemma nothing_found_tiles (self : subdivider) (fuel total : nat) (d : Q)
    (shapefile : list Polygon) (print_progress : bool) :
  finds_nothing ->
  forall coordinate_list i st,
  exists st',
    for_coordinates self (S fuel) total d shapefile print_progress i
                    coordinate_list st = Val tt st'
    /\ box_dimensions st'
       = (box_dimensions st ++ repeat d (List.length coordinate_list))%list
    /\ num_queries st' = (num_queries st + List.length coordinate_list)%nat
    /\ output_file st' = output_file st
    /\ requests_of (trace st')
       = (requests_of (trace st) ++ map tile_request coordinate_list)%list.
Proof.
  intros Hnothing. induction coordinate_list as [|c rest IH]; intros i st.
  - exists st. cbn. rewrite !app_nil_r, Nat.add_0_r. auto.
  - set (st0 := tile_started print_progress i total st).
    destruct (Hnothing (tile_request c) (world st0)) as (body & Hreply & Hstatus).
    destruct (api (tile_request c) (world st0)) as [reply w] eqn:Hapi.
    cbn in Hreply. subst reply.
    assert (Hok : succeeded body = true).
    { unfold succeeded. rewrite Hstatus. apply orb_true_r. }
    destruct (@tile_after_failed_attempts _ _ _ self 0 fuel total i c rest d
                shapefile print_progress st st0 body w eq_refl Hapi Hok)
      as [Heq _].
    cbn [Nat.add] in Heq. rewrite Heq. clear Heq.
    set (st1 := after_sleep 1 (after_reply (tile_request c) w st0)).
    assert (Hb : box_dimensions st1 = box_dimensions st)
      by (unfold st1, st0, tile_started; now destruct print_progress).
    assert (Hq : num_queries st1 = S (num_queries st))
      by (unfold st1, st0, tile_started; now destruct print_progress).
    assert (Ho : output_file st1 = output_file st)
      by (unfold st1, st0, tile_started; now destruct print_progress).
    assert (Ht : requests_of (trace st1)
                 = (requests_of (trace st) ++ [tile_request c])%list).
    { unfold st1, st0, tile_started. destruct print_progress; cbn;
        rewrite !requests_of_app; cbn; now rewrite ?app_nil_r. }
    clearbody st1. clear Hapi. clearbody st0.
    unfold resolve, bind, try_except, dispatch, store. rewrite Hstatus.
    cbn [String.eqb Ascii.eqb Bool.eqb orb].
    unfold record_dimension, ret.
    destruct (IH (S i) (set_box_dimensions (box_dimensions st1 ++ [d]) st1))
      as (st' & Hrun & Hdims & Hn & Hfile & Htrace).
    exists st'. split; [exact Hrun|].
    cbn [box_dimensions num_queries output_file trace set_box_dimensions]
      in Hdims, Hn, Hfile, Htrace.
    repeat split.
    + rewrite Hdims, Hb. cbn. now rewrite <- app_assoc.
    + rewrite Hn, Hq. cbn. lia.
    + rewrite Hfile. exact Ho.
    + rewrite Htrace, Ht. cbn. now rewrite <- app_assoc.
Qed.

(** X11: a region where the service finds nothing.  When every reply is
    'ZERO_RESULTS', a run returns after exactly one request per tile of the
    study area, in the order of the tiles; it has counted one query and
    recorded the edge once per tile, and it has not touched the output
    file. *)
Theorem nothing_found_run (fuel : nat) (a b c e d : Q) (shapefile : list Polygon)
    (print_progress : bool) (st : State) :
  finds_nothing ->
  exists st',
    variable_bounding_box (S (S fuel)) a b c e d shapefile print_progress st
    = Val tt st'
    /\ box_dimensions st'
       = (box_dimensions st
          ++ repeat d (List.length (pixelise_region (divide_bounding_box a b c e d)
                                                    shapefile_tampines)))%list
    /\ num_queries st'
       = (num_queries st
          + List.length (pixelise_region (divide_bounding_box a b c e d)
                                         shapefile_tampines))%nat
    /\ output_file st' = output_file st
    /\ requests_of (trace st')
       = (requests_of (trace st)
          ++ map tile_request (pixelise_region (divide_bounding_box a b c e d)
                                               shapefile_tampines))%list.
Proof.
  intros Hnothing. rewrite variable_bounding_box_S.
  now apply nothing_found_tiles.
Qed.

(** X12: the script needs a result.  When the service finds nothing and
    there is no output file yet, [main] queries every tile of the study area
    and then fails with [FileNotFoundError]: the closing pass opens the
    output file, which no tile has created. *)
Theorem main_needs_a_result (fuel : nat) (st : State) :
  finds_nothing ->
  output_file st = Absent ->
  exists st',
    main (S (S fuel)) st = Exn FileNotFoundError st'
    /\ num_queries st'
       = List.length (pixelise_region
                        (divide_bounding_box max_lat min_lat max_lng min_lng
                                             querybox_dim)
                        shapefile_tampines)
    /\ output_file st' = Absent.
Proof.
  intros Hnothing Hfile. unfold main, bind.
  rewrite variable_bounding_box_S.
  destruct (@nothing_found_tiles (variable_bounding_box (S fuel)) fuel
              (List.length (pixelise_region
                              (divide_bounding_box max_lat min_lat max_lng min_lng
                                                   querybox_dim)
                              shapefile_tampines))
              querybox_dim shapefile_tampines true Hnothing
              (pixelise_region
                 (divide_bounding_box max_lat min_lat max_lng min_lng querybox_dim)
                 shapefile_tampines)
              1%nat (set_box_dimensions [] (set_num_queries 0 st)))
    as (st' & Hrun & _ & Hn & Ho & _).
  rewrite Hrun. unfold deduplicate_output.
  cbn in Ho. rewrite Ho, Hfile. exists st'. repeat split.
  - exact Hn.
  - now rewrite Ho.
Qed.

End NothingFound.

(** ** Batches that are accepted *)

Section Acceptance.
Context `{G : Globals} `{Wd : World}.

Lemma hit_geometry_needs_corners (geom lat lng : json) (g : Geometry) :
  hit_geometry geom lat lng = Ok g ->
  negb (has_key geom "bounds")
  || match getitem geom "bounds" with
     | Ok bounds =>
         corner_present bounds "northeast" "lat"
         && corner_present bounds "northeast" "lng"
         && corner_present bounds "southwest" "lat"
         && corner_present bounds "southwest" "lng"
     | Err _ => false
     end = true.
Proof.
  unfold hit_geometry, corner_present.
  destruct (has_key geom "bounds"); cbn; [|reflexivity].
  destruct (getitem geom "bounds") as [bounds|]; cbn; [|discriminate].
  destruct (getitem bounds "northeast") as [ne|]; cbn; [|discriminate].
  destruct (getitem ne "lat"); cbn; [|discriminate].
  destruct (getitem ne "lng"); cbn; [|discriminate].
  destruct (getitem bounds "southwest") as [sw|]; cbn; [|discriminate].
  destruct (getitem sw "lat"); cbn; [|discriminate].
  destruct (getitem sw "lng"); cbn; [reflexivity | discriminate].
Qed.

Lemma within_boundary_area_coordinates (lat lng : json) (a b c d : Q) (r : bool) :
  within_boundary_area lat lng a b c d = Ok r ->
  present (coordinate_value lat) = true /\ present (coordinate_value lng) = true.
Proof.
  unfold within_boundary_area.
  destruct (coordinate_value lat); cbn; [|discriminate].
  destruct (coordinate_value lng); cbn; [auto | discriminate].
Qed.

Lemma format_hit_acceptable (w : W) (hit : json) :
  (exists r, format_hit w hit = Ok r) <-> acceptable hit = true.
Proof.
  split.
  - intros [r Hr]. unfold acceptable, well_formed, hit_location in *.
    unfold format_hit in Hr.
    destruct (getitem hit "geometry") as [geom|]; cbn in *; [|discriminate].
    destruct (getitem geom "location") as [loc|]; cbn in *; [|discriminate].
    destruct (getitem loc "lat") as [lat|]; cbn in *; [|discriminate].
    destruct (getitem loc "lng") as [lng|]; cbn in *; [|discriminate].
    destruct (within_boundary_area lat lng min_lat max_lat min_lng max_lng)
      as [[|]|] eqn:Hin; cbn in *; [|reflexivity|discriminate].
    apply within_boundary_area_coordinates in Hin. destruct Hin as [-> ->].
    destruct (hit_geometry geom lat lng) as [g|] eqn:Hg; cbn in *; [|discriminate].
    apply hit_geometry_needs_corners in Hg. rewrite Hg.
    destruct (hit_address hit); cbn in *; [|discriminate].
    destruct (getitem hit "types") eqn:Ht; cbn in *; [|discriminate].
    destruct (getitem hit "place_id") eqn:Hp; cbn in *; [|discriminate].
    now rewrite (getitem_has_key _ _ Ht), (getitem_has_key _ _ Hp).
  - unfold acceptable. intros Hacc.
    destruct (hit_location hit) as [[lat lng]|] eqn:Hloc; [|discriminate].
    destruct (within_boundary_area lat lng min_lat max_lat min_lng max_lng)
      as [[|]|] eqn:Hin; [| |discriminate].
    + now apply format_hit_well_formed.
    + exists None. unfold format_hit. unfold hit_location in Hloc.
      destruct (getitem hit "geometry") as [geom|]; cbn in *; [|discriminate].
      destruct (getitem geom "location") as [loc|]; cbn in *; [|discriminate].
      destruct (getitem loc "lat") as [lat'|]; cbn in *; [|discriminate].
      destruct (getitem loc "lng") as [lng'|]; cbn in *; [|discriminate].
      injection Hloc as -> ->. now rewrite Hin.
Qed.

(** X13: the batches [format_query_result] accepts.  It returns records
    exactly when every hit of the batch is acceptable: each hit has a
    location that can be compared with the global box, and each hit inside
    that box has 'types', 'place_id' and, if it has 'bounds', both corners
    of them.  A hit outside the box may lack any other field; 'vicinity' and
    'name' may always be missing. *)
Theorem format_query_result_accepts (w : W) (hits : list json) :
  (exists fs, format_query_result w hits = Ok fs)
  <-> forallb acceptable hits = true.
Proof.
  induction hits as [|hit rest IH]; cbn.
  - split; [reflexivity | now eexists].
  - rewrite andb_true_iff, <- IH, <- (format_hit_acceptable w). split.
    + intros [fs Hfs].
      destruct (format_hit w hit) as [r|]; cbn in Hfs; [|discriminate].
      destruct (format_query_result w rest) as [fs'|]; cbn in Hfs;
        [|discriminate].
      split; now eexists.
    + intros [[r ->] [fs ->]]. cbn. now eexists.
Qed.

End Acceptance.

(** ** The query string of a box *)

Section QueryString.
Context `{H : Helpers}.

Lemma string_app_assoc (a b c : string) : ((a ++ b) ++ c = a ++ (b ++ c))%string.
Proof. induction a as [|ch a IH]; cbn; [reflexivity | now rewrite IH]. Qed.

Lemma plain_split (ch : ascii) (a b r1 r2 : string) :
  ch = ","%char \/ ch = "&"%char \/ ch = "|"%char ->
  plain a -> plain b ->
  (a ++ String ch r1 = b ++ String ch r2)%string ->
  a = b /\ r1 = r2.
Proof.
  intros Hch. revert b.
  induction a as [|x a IH]; intros [|y b] Ha Hb Heq; cbn in *.
  - injection Heq as <-. auto.
  - injection Heq as <- _. destruct Hb as (H1 & H2 & H3 & _).
    destruct Hch as [-> | [-> | ->]]; contradiction.
  - injection Heq as -> _. destruct Ha as (H1 & H2 & H3 & _).
    destruct Hch as [-> | [-> | ->]]; contradiction.
  - injection Heq as -> Heq. destruct Ha as (_ & _ & _ & Ha).
    destruct Hb as (_ & _ & _ & Hb).
    destruct (IH b Ha Hb Heq) as [-> ->]. auto.
Qed.

(** X14: the query string determines its six numbers.  When the strings
    [str] gives for numbers contain none of the separators ',', '&' and '|',
    two calls of [format_coordinates] that return the same string were given
    numbers with the same strings, field by field. *)
Theorem format_coordinates_injective
    (max_lat max_lng min_lat min_lng centre_lat centre_lng : Q)
    (max_lat' max_lng' min_lat' min_lng' centre_lat' centre_lng' : Q) :
  (forall q, plain (py_str (JNum q))) ->
  format_coordinates max_lat max_lng min_lat min_lng centre_lat centre_lng
  = format_coordinates max_lat' max_lng' min_lat' min_lng' centre_lat' centre_lng' ->
  py_str (JNum centre_lat) = py_str (JNum centre_lat')
  /\ py_str (JNum centre_lng) = py_str (JNum centre_lng')
  /\ py_str (JNum min_lat) = py_str (JNum min_lat')
  /\ py_str (JNum min_lng) = py_str (JNum min_lng')
  /\ py_str (JNum max_lat) = py_str (JNum max_lat')
  /\ py_str (JNum max_lng) = py_str (JNum max_lng').
Proof.
  intros Hplain. unfold format_coordinates. cbv zeta.
  rewrite !string_app_assoc. cbn [append].
  intros Heq.
  apply plain_split in Heq; auto. destruct Heq as [-> Heq].
  injection Heq as Heq.
  apply plain_split in Heq; auto. destruct Heq as [-> Heq].
  injection Heq as Heq.
  apply plain_split in Heq; auto. destruct Heq as [-> Heq].
  injection Heq as Heq.
  apply plain_split in Heq; auto. destruct Heq as [-> Heq].
  apply plain_split in Heq; auto. destruct Heq as [-> Heq].
  injection Heq as ->. repeat split.
Qed.

End QueryString.

(** ** A region under the cap *)

Section UnderTheCap.
Context `{G : Globals} `{Wd : World}.




End UnderTheCap.

(** * Further scenarios *)

Section FarHitFurther.
#[local] Existing Instance Scenario.planar.
#[local] Existing Instance Scenario.region.
#[local] Existing Instance Scenario.far.

(** X5 on a batch of a hit inside the global box and one outside. *)
Lemma format_query_result_fields_witness :
  Forall (fun f =>
            source (properties f) = "GoogleMap"
            /\ requires_verification (properties f) = "No"
            /\ extraction_date f = extract_date Scenario.idle_far
            /\ exists hit place_id types,
                 In hit [Scenario.hit "far" 50 50; Scenario.hit "away" 200 200]
                 /\ getitem hit "place_id" = Ok place_id
                 /\ id f = py_str place_id
                 /\ getitem hit "types" = Ok types
                 /\ place_type (properties f) = types
                 /\ name (properties f) = extract_placename hit)
         [Scenario.feature "far" 50 50].
Proof.
  apply (@format_query_result_fields _ _ _ Scenario.idle_far
           [Scenario.hit "far" 50 50; Scenario.hit "away" 200 200]).
  reflexivity.
Defined.



End FarHitFurther.

Section ScriptedFurther.
#[local] Existing Instance Scenario.planar.
#[local] Existing Instance Scenario.region.
#[local] Existing Instance Scenario.scripted_service.

(** X9 on a tile whose query is rate-limited, then fails, then succeeds. *)
Lemma query_loop_returns_accepted_reply_witness :
  exists st',
    query_loop (variable_bounding_box 1) 3 Scenario.tile40 40 shapefile_tampines
               (Scenario.initial Scenario.limited_then_hits)
    = Val Scenario.two_hits st'
    /\ succeeded Scenario.two_hits = true
    /\ exists s w, api (tile_request Scenario.tile40) (world s)
                   = (Answer Scenario.two_hits, w).
Proof.
  eexists. split; [vm_compute; reflexivity|].
  eapply (@query_loop_returns_accepted_reply _ _ _ (variable_bounding_box 1) 3
            Scenario.tile40 40 shapefile_tampines
            (Scenario.initial Scenario.limited_then_hits)).
  vm_compute. reflexivity.
Defined.

End ScriptedFurther.

Section AlwaysCrowded.
#[local] Existing Instance Scenario.planar.
#[local] Existing Instance Scenario.region.
#[local] Existing Instance Scenario.always_crowded.

(** X10 on a tile of edge 4 with twenty hits and no output file before:
    the file is created with the twenty records, and the edge is recorded. *)
Lemma truncated_tile_at_floor_witness :
  exists st',
    for_coordinates (variable_bounding_box 1) 1 1 4 shapefile_tampines true 1
                    [Scenario.tile40]
                    (Scenario.initial Scenario.idle_always_crowded)
    = Val tt st'
    /\ output_file st'
       = Collection (map (fun k => Scenario.feature ("T" ++ Scenario.digit k) 1 1)
                         (seq 0 20))
    /\ box_dimensions st' = [4]
    /\ requests_of (trace st') = [tile_request Scenario.tile40].
Proof.
  destruct (@truncated_tile_at_floor _ _ _ (variable_bounding_box 1) 0 1 1
              Scenario.tile40 [] 4 shapefile_tampines true
              (Scenario.initial Scenario.idle_always_crowded)
              {| status := "OK"; results := Scenario.hits "T" 20 1 1 |}
              Scenario.idle_always_crowded)
    as [_ Hfinal].
  - reflexivity.
  - reflexivity.
  - vm_compute. lia.
  - vm_compute. reflexivity.
  - eassert (Hformat :
               format_query_result
                 (elapse 1 Scenario.idle_always_crowded)
                 (results {| status := "OK";
                             results := Scenario.hits "T" 20 1 1 |})
               = Ok _) by (vm_compute; reflexivity).
    rewrite (Hfinal _ ltac:(discriminate) Hformat).
    eexists. split; [reflexivity|].
    split; [vm_compute; reflexivity|].
    split; vm_compute; reflexivity.
Defined.

End AlwaysCrowded.

Section Deserted.
#[local] Existing Instance Scenario.planar.
#[local] Existing Instance Scenario.region.
#[local] Existing Instance Scenario.deserted.

Lemma deserted_finds_nothing : finds_nothing.
Proof. intros r w. eexists. split; reflexivity. Qed.

(** X11 on the study area of 100 m queried from tiles of 40 m. *)
Lemma nothing_found_run_witness :
  exists st',
    variable_bounding_box 2 100 0 100 0 40 shapefile_tampines true
                          (Scenario.initial Scenario.idle_deserted)
    = Val tt st'
    /\ box_dimensions st'
       = (box_dimensions (Scenario.initial Scenario.idle_deserted)
          ++ repeat 40 (List.length
                          (pixelise_region (divide_bounding_box 100 0 100 0 40)
                                           shapefile_tampines)))%list
    /\ num_queries st'
       = (num_queries (Scenario.initial Scenario.idle_deserted)
          + List.length (pixelise_region (divide_bounding_box 100 0 100 0 40)
                                         shapefile_tampines))%nat
    /\ output_file st' = output_file (Scenario.initial Scenario.idle_deserted)
    /\ requests_of (trace st')
       = (requests_of (trace (Scenario.initial Scenario.idle_deserted))
          ++ map tile_request
                 (pixelise_region (divide_bounding_box 100 0 100 0 40)
                                  shapefile_tampines))%list.
Proof.
  apply (@nothing_found_run _ _ _ 0 100 0 100 0 40 shapefile_tampines true
           (Scenario.initial Scenario.idle_deserted) deserted_finds_nothing).
Defined.

(** X12 on that study area: nine queries, then the error. *)
Lemma main_needs_a_result_witness :
  exists st',
    main 2 (Scenario.initial Scenario.idle_deserted)
    = Exn FileNotFoundError st'
    /\ num_queries st'
       = List.length (pixelise_region
                        (divide_bounding_box max_lat min_lat max_lng min_lng
                                             querybox_dim)
                        shapefile_tampines)
    /\ output_file st' = Absent.
Proof.
  apply (@main_needs_a_result _ _ _ 0 (Scenario.initial Scenario.idle_deserted)
           deserted_finds_nothing).
  reflexivity.
Defined.

Example main_on_a_deserted_region :
  exists st',
    main 2 (Scenario.initial Scenario.idle_deserted)
    = Exn FileNotFoundError st'
    /\ num_queries st' = 9%nat.
Proof. eexists. split; vm_compute; reflexivity. Qed.

End Deserted.

Section Integral.
#[local] Existing Instance Scenario.integral.

Lemma plain_string_of_uint (u : Decimal.uint) : plain (NilEmpty.string_of_uint u).
Proof.
  induction u; cbn; auto; repeat split; try discriminate; assumption.
Qed.

Lemma integral_plain (q : Q) : plain (py_str (JNum q)).
Proof.
  cbn. destruct (Z.to_int (Qnum q)) as [u|u]; cbn.
  - apply plain_string_of_uint.
  - repeat split; try discriminate. apply plain_string_of_uint.
Qed.

(** The query string of the box from (0, 0) to (40, 40). *)
Example format_coordinates_of_a_box :
  format_coordinates 40 40 0 0 20 20 = "20, 20&bounds=0, 0|40, 40".
Proof. reflexivity. Qed.

(** X14 on the integral helpers. *)
Lemma format_coordinates_injective_witness :
  py_str (JNum 20) = py_str (JNum 20)
  /\ py_str (JNum 20) = py_str (JNum 20)
  /\ py_str (JNum 0) = py_str (JNum 0)
  /\ py_str (JNum 0) = py_str (JNum 0)
  /\ py_str (JNum 40) = py_str (JNum 40)
  /\ py_str (JNum 40) = py_str (JNum 40).
Proof.
  apply (@format_coordinates_injective _ 40 40 0 0 20 20 40 40 0 0 20 20
           integral_plain).
  reflexivity.
Defined.

End Integral.
